(** * Guest identity of the discuss application (addons/mail/models/discuss/mail_guest.py)

    A shallow embedding of the guest-resolution decorator
    [add_guest_to_context] and of the methods of the [mail.guest] model,
    followed by the properties proved about them.

    Python values are modelled as they are used by the module: strings are
    sequences of Unicode code points, dictionaries with literal keys are
    finite maps, record sets are tuples of ids together with the superuser
    flag of their environment, and the database, the cookies and the request
    context are threaded through a state-and-exception monad. *)

From stdpp Require Import gmap strings list fin_maps.
From Stdlib Require Import ZArith NArith Lia.

Local Open Scope Z_scope.

Set Default Proof Using "Type".

(** ** Python strings *)

(** A [str] is a sequence of code points. *)
Abbreviation char := N (only parsing).
Abbreviation str := (list N) (only parsing).

(** The (ASCII) string literals of the source, as code points. *)
Definition py (s : string) : str :=
  map Ascii.N_of_ascii (String.list_ascii_of_string s).

(** [str.isspace] for one code point: the white-space table of the
    interpreter's Unicode database. *)
Definition isspace (c : char) : bool :=
  ((9 <=? c) && (c <=? 13) || (28 <=? c) && (c <=? 32)
   || (c =? 133) || (c =? 160) || (c =? 5760)
   || (8192 <=? c) && (c <=? 8202)
   || (c =? 8232) || (c =? 8233) || (c =? 8239) || (c =? 8287)
   || (c =? 12288))%N.

Fixpoint lstrip (s : str) : str :=
  match s with
  | c :: s' => if isspace c then lstrip s' else s
  | [] => []
  end.

Definition rstrip (s : str) : str := reverse (lstrip (reverse s)).

(** [s.strip()] *)
Definition strip (s : str) : str := rstrip (lstrip s).

(** [s.split(sep)] for a separator of one code point. *)
Fixpoint split (sep : char) (s : str) : list str :=
  match s with
  | [] => [[]]
  | c :: s' =>
      if (c =? sep)%N then [] :: split sep s'
      else match split sep s' with
           | p :: ps => (c :: p) :: ps
           | [] => [[c]]
           end
  end.

(** [sep.join(parts)] *)
Fixpoint join (sep : char) (parts : list str) : str :=
  match parts with
  | [] => []
  | [p] => p
  | p :: ps => p ++ sep :: join sep ps
  end.

(** *** [int(s)]

    The conversion first maps the text to ASCII (code points below 127 are
    kept, other white space becomes a blank, other decimal digits become
    ASCII digits, anything else ends the text with a question mark), then
    reads blanks, a sign, digits separated by single underscores, and
    blanks again. *)

(** [Py_ISSPACE] *)
Definition ascii_space (c : char) : bool :=
  ((9 <=? c) && (c <=? 13) || (c =? 32))%N.

Definition digit_of (c : char) : option N :=
  if ((48 <=? c) && (c <=? 57))%N then Some (c - 48)%N else None.

Fixpoint skip_spaces (s : str) : str :=
  match s with
  | c :: s' => if ascii_space c then skip_spaces s' else s
  | [] => []
  end.

(** Reads the digits; [need_digit] holds at the start and after an
    underscore.  Gives the value, the number of digits and the rest. *)
Fixpoint scan_digits (s : str) (need_digit : bool) (acc : Z) (cnt : N)
  : option (Z * N * str) :=
  match s with
  | [] => if need_digit then None else Some (acc, cnt, [])
  | c :: s' =>
      match digit_of c with
      | Some d => scan_digits s' false (10 * acc + Z.of_N d) (cnt + 1)%N
      | None =>
          if (c =? 95)%N then
            if need_digit then None else scan_digits s' true acc cnt
          else if need_digit then None else Some (acc, cnt, s)
      end
  end.

Section Interpreter.

(** Two facts of the running interpreter that the module does not fix:
    the decimal value of the digits outside ASCII, and the limit on the
    number of digits [int] accepts (0: no limit). *)
Variable unicode_decimal : char -> option N.
Variable int_max_str_digits : N.

Fixpoint to_ascii (s : str) : str :=
  match s with
  | [] => []
  | c :: s' =>
      if (c <? 127)%N then c :: to_ascii s'
      else if isspace c then 32%N :: to_ascii s'
      else match unicode_decimal c with
           | Some d => (48 + d)%N :: to_ascii s'
           | None => [63%N]
           end
  end.

(** [int(s)]; [None] stands for the [ValueError] it raises. *)
Definition int_of_str (s : str) : option Z :=
  let t := skip_spaces (to_ascii s) in
  let '(neg, t) :=
    match t with
    | 45%N :: t' => (true, t')
    | 43%N :: t' => (false, t')
    | _ => (false, t)
    end in
  match scan_digits t true 0 0%N with
  | Some (v, cnt, rest) =>
      match skip_spaces rest with
      | [] =>
          if ((0 <? int_max_str_digits) && (int_max_str_digits <? cnt))%N
          then None
          else Some (if neg then - v else v)
      | _ :: _ => None
      end
  | None => None
  end.

End Interpreter.

(** ** Values, record sets and the state of a request *)

(** A record set of [mail.guest]: the tuple of its ids and the superuser
    flag of its environment. *)
Record recordset := Recordset { ids : list Z; su : bool }.

(** The Python values the module handles. *)
#[warnings="-register-all"]
Inductive pyval :=
| VNone
| VBool (b : bool)
| VInt (z : Z)
| VStr (s : str)
| VGuest (r : recordset)
| VList (l : list pyval)
| VDict (d : list (string * pyval)).

(** [bool(v)] *)
Definition truthy (v : pyval) : bool :=
  match v with
  | VNone => false
  | VBool b => b
  | VInt z => negb (z =? 0)
  | VStr s => match s with [] => false | _ => true end
  | VGuest r => match ids r with [] => false | _ => true end
  | VList l => match l with [] => false | _ => true end
  | VDict d => match d with [] => false | _ => true end
  end.

(** [a or b]; the right operand is evaluated only when the left one is
    false. *)
Definition py_or (a : pyval) (b : unit -> pyval) : pyval :=
  if truthy a then a else b tt.

(** A row of the table [mail_guest]: the fields the module reads or
    writes.  An unset [Char] or [Selection] reads as [False]: [None]. *)
Record guest_row := GuestRow {
  name : str;
  access_token : option str;
  timezone : option str;
  channel_ids : list Z
}.

(** A row of the table [bus_presence]; a time stamp is a number of
    microseconds, [None] is SQL [NULL]. *)
Record presence_row := PresenceRow {
  guest_id : Z;
  last_poll : option Z;
  last_presence : option Z
}.

(** The target of a bus notification: a channel record or the guest. *)
Inductive target :=
| TChannel (c : Z)
| TGuest (g : recordset).

Definition notification : Type := target * string * pyval.

(** What a request can see and change. *)
Record world := World {
  cookies : gmap string (list N);   (* req.httprequest.cookies *)
  context : gmap string pyval;      (* req.env.context *)
  mail_guest : gmap Z guest_row;    (* the table mail_guest *)
  row_locked : gset Z;              (* rows locked by other transactions *)
  bus_presence : list presence_row; (* the table bus_presence *)
  now : Z;                          (* now() of the transaction, in UTC *)
  db_lookups : nat;                 (* number of exists() queries run *)
  bus : list notification           (* notifications handed to bus.bus *)
}.

Definition set_context (f : gmap string pyval -> gmap string pyval)
  (w : world) : world :=
  World (cookies w) (f (context w)) (mail_guest w) (row_locked w)
        (bus_presence w) (now w) (db_lookups w) (bus w).

Definition set_mail_guest (f : gmap Z guest_row -> gmap Z guest_row)
  (w : world) : world :=
  World (cookies w) (context w) (f (mail_guest w)) (row_locked w)
        (bus_presence w) (now w) (db_lookups w) (bus w).

Definition count_lookup (w : world) : world :=
  World (cookies w) (context w) (mail_guest w) (row_locked w)
        (bus_presence w) (now w) (S (db_lookups w)) (bus w).

(** Modelled from the spec: [_sendmany] of bus.bus, the external bus the
    notifications are handed to; it keeps them in the order given. *)
Definition send (ns : list notification) (w : world) : world :=
  World (cookies w) (context w) (mail_guest w) (row_locked w)
        (bus_presence w) (now w) (db_lookups w) (bus w ++ ns).

(** ** Exceptions and the monad of a request *)

Inductive exn :=
| ValueError
| AttributeError
| TypeError
| MissingError
| DatabaseError
| UserError (msg : string).

Inductive outcome (A : Type) :=
| Ok (a : A)
| Raise (e : exn).
Arguments Ok {A} a.
Arguments Raise {A} e.

(** A computation returns or raises, and leaves a state in both cases. *)
Definition M (A : Type) : Type := world -> outcome A * world.

#[export] Instance M_ret : MRet M := fun A a w => (Ok a, w).
#[export] Instance M_bind : MBind M := fun A B f c w =>
  match c w with
  | (Ok a, w') => f a w'
  | (Raise e, w') => (Raise e, w')
  end.

Definition raise {A} (e : exn) : M A := fun w => (Raise e, w).
Definition gets {A} (f : world -> A) : M A := fun w => (Ok (f w), w).
Definition modify (f : world -> world) : M unit := fun w => (Ok tt, f w).
Definition lift {A} (o : outcome A) : M A := fun w => (o, w).

(** ** The parts of the framework the module calls *)

(** The record-set class (odoo.models) is not part of the module; the four
    methods the module calls on it are modelled from what the
    specification says of them. *)

(** Modelled from the spec: [browse] of odoo.models, the designation of
    the guest of a given id, with the rights of the request. *)
Definition browse (i : Z) : recordset := Recordset [i] false.

(** Modelled from the spec: [sudo] of odoo.models, which gives the same
    records with elevated rights ([sudo()]) or with the rights of the
    caller ([sudo(False)]). *)
Definition sudo (flag : bool) (r : recordset) : recordset :=
  Recordset (ids r) flag.

(** [req.env["mail.guest"]]: the empty record set, the "no guest"
    identity. *)
Definition no_guest : recordset := Recordset [] false.

(** Modelled from the spec: [exists] of odoo.models, the look-up of the
    guest in the data base: one query, which keeps the ids that have a
    row, so that the result is empty when no such guest exists. *)
Definition exists_ (r : recordset) : M recordset := fun w =>
  (Ok (Recordset
         (filter (fun i => is_Some (mail_guest w !! i)) (ids r)) (su r)),
   count_lookup w).

(** Modelled from the spec: [ensure_one] of odoo.models, the precondition
    of a method for exactly one guest; it fails on any other selection
    (with [ValueError] in the framework).  Gives the id of the record. *)
Definition ensure_one (r : recordset) : M Z :=
  match ids r with
  | [i] => mret i
  | _ => raise ValueError
  end.

(** [r.f] for a field [f]: the value in the row of the single record of
    [r]; a record without a row cannot be read. *)
Definition read_field {A} (f : guest_row -> A) (r : recordset) : M A :=
  i ← ensure_one r;
  row ← gets (fun w => mail_guest w !! i);
  match row with
  | Some g => mret (f g)
  | None => raise MissingError
  end.

(** [bool(v)] of an optional string field. *)
Definition field_set (v : option (list N)) : bool :=
  match v with
  | Some (_ :: _) => true
  | _ => false
  end.

(** Modelled from the spec: [consteq] of odoo.tools is not part of the
    module; the spec calls it ConstantTimeEqual, the equality of the stored
    and the decoded secret.  It is the digest comparison of the standard
    library, which accepts strings only when all their code points are
    ASCII and raises [TypeError] otherwise. *)
Definition is_ascii (s : str) : bool := forallb (fun c => c <? 128)%N s.

Definition consteq (a b : str) : outcome bool :=
  if is_ascii a && is_ascii b then Ok (bool_decide (a = b))
  else Raise TypeError.

(** ** The model [mail.guest] and its decorator *)

Definition _cookie_name : string := "dgid".
Definition _cookie_separator : char := 124%N.

Section MailGuest.

(** Imported tables and constants: the interpreter's (see [int_of_str]),
    [pytz.all_timezones], and the two timers of bus_presence, in
    seconds. *)
Variable unicode_decimal : char -> option N.
Variable int_max_str_digits : N.
Variable all_timezones : list (list N).
Variable DISCONNECTION_TIMER AWAY_TIMER : Z.

(** [int(s)], raising [ValueError]. *)
Definition int (s : str) : M Z :=
  match int_of_str unicode_decimal int_max_str_digits s with
  | Some z => mret z
  | None => raise ValueError
  end.

(** [_get_guest_from_context], on an environment whose context is [ctx].
    The result differs from the guest of the context only by the context
    of its own environment, which nothing here reads. *)
Definition _get_guest_from_context (ctx : gmap string pyval) : recordset :=
  match ctx !! "guest" with
  | Some (VGuest guest) => guest
  | _ => no_guest
  end.

(** [_get_timezone_from_request]; [None] is the [False] it returns. *)
Definition _get_timezone_from_request (w : world) : option (list N) :=
  match cookies w !! "tz" with
  | Some timezone =>
      if bool_decide (timezone ∈ all_timezones) then Some timezone
      else None
  | None => None
  end.

(** [_update_timezone]: the row is written unless another transaction
    holds its lock, in which case the statement updates nothing.  On the
    empty record set [self.id] is [False], which the integer column
    cannot be compared with. *)
Definition _update_timezone (self : recordset) (tz : str) : M unit :=
  match ids self with
  | [] => raise DatabaseError
  | [i] =>
      modify (fun w =>
        if bool_decide (i ∈ row_locked w) then w
        else set_mail_guest
               (alter (fun g => GuestRow (name g) (access_token g)
                                         (Some tz) (channel_ids g)) i) w)
  | _ => raise ValueError
  end.

(** The candidate token: the argument, else the cookie, else the entry of
    the context. *)
Definition select_token (guest_token : pyval) (w : world) : pyval :=
  py_or
    (py_or guest_token
       (fun _ => from_option VStr VNone (cookies w !! _cookie_name)))
    (fun _ => default (VStr []) (context w !! "guest_token")).

(** [token.split(sep)], which only a string has. *)
Definition split_token (token : pyval) : M (list (list N)) :=
  match token with
  | VStr s => mret (split _cookie_separator s)
  | _ => raise AttributeError
  end.

(** Lines 35 to 43: the guest designated by the parts of the token. *)
Definition guest_of_parts (guest : recordset) (parts : list (list N))
  : M recordset :=
  match parts with
  | [guest_id; guest_access_token] =>
      i ← int guest_id;
      guest ← exists_ (sudo true (browse i));
      if negb (truthy (VGuest guest)) then mret no_guest
      else
        stored ← read_field access_token guest;
        match stored with
        | Some (c :: t) =>
            same ← lift (consteq (c :: t) guest_access_token);
            if negb same then mret no_guest
            else
              tz ← read_field timezone guest;
              if negb (field_set tz) then
                tz' ← gets _get_timezone_from_request;
                if field_set tz' then
                  _update_timezone guest (default [] tz');; mret guest
                else mret guest
              else mret guest
        | _ => mret no_guest
        end
  | _ => mret guest
  end.

(** The type of a decorated function: [self] (the context of its
    environment when it has one), the positional and the keyword
    arguments. *)
Definition handler (R : Type) : Type :=
  option (gmap string pyval) -> list pyval -> gmap string pyval -> M R.

(** Lines 29 to 44: the guest the token designates, with the rights of the
    caller; [guest] is the empty guest read from the context. *)
Definition guest_of_token (guest : recordset) (guest_token : pyval)
  : M recordset :=
  token ← gets (select_token guest_token);
  parts ← split_token token;
  guest ← guest_of_parts guest parts;
  mret (sudo false guest).

(** [wrapper], the function [add_guest_to_context] returns for [func]. *)
Definition add_guest_to_context {R} (func : handler R) : handler R :=
  fun self args kwargs =>
    guest ← gets (fun w => _get_guest_from_context (context w));
    let guest_token := default VNone (kwargs !! "guest_token") in
    let kwargs := delete "guest_token" kwargs in
    if truthy (VGuest guest) then func self args kwargs
    else
      guest ← guest_of_token guest guest_token;
      modify (set_context (insert "guest" (VGuest guest)));;
      let self := insert "guest" (VGuest guest) <$> self in
      func self args kwargs.

(** *** Presence *)

(** [interval 'n seconds'], in microseconds. *)
Definition seconds (n : Z) : Z := n * 1000000.

(** [age(now, t) > interval 'n seconds']: for a threshold below one day
    the age compares as the difference of the two time stamps; a
    comparison with [NULL] is not true. *)
Definition older_than (w : world) (t : option Z) (n : Z) : bool :=
  match t with
  | Some t => seconds n <? now w - t
  | None => false
  end.

(** The [CASE] expression of the query. *)
Definition status_of_row (w : world) (r : presence_row) : string :=
  if older_than w (last_poll r) DISCONNECTION_TIMER then "offline"
  else if older_than w (last_presence r) AWAY_TIMER then "away"
  else "online".

(** The rows the query returns: [(id, status)] for the rows of the
    guests of [self_ids]. *)
Definition presence_query (w : world) (self_ids : list Z)
  : list (Z * string) :=
  map (fun r => (guest_id r, status_of_row w r))
      (filter (fun r => guest_id r ∈ self_ids) (bus_presence w)).

(** [dict(pairs)]: a later pair replaces an earlier one of the same
    key. *)
Definition dict_of (pairs : list (Z * string)) : gmap Z string :=
  foldl (fun m p => <[p.1 := p.2]> m) ∅ pairs.

(** [_compute_im_status]: the status assigned to each guest of [self].
    The statement is not valid SQL for an empty tuple of ids. *)
Definition _compute_im_status (self : recordset) : M (list (Z * string)) :=
  match ids self with
  | [] => raise DatabaseError
  | _ =>
      res ← gets (fun w => dict_of (presence_query w (ids self)));
      mret (map (fun i => (i, default "offline" (res !! i))) (ids self))
  end.

(** *** Name *)

(** [self.name = name] on one record. *)
Definition write_name (self : recordset) (n : str) : M unit :=
  i ← ensure_one self;
  row ← gets (fun w => mail_guest w !! i);
  match row with
  | Some g =>
      modify (set_mail_guest
                (insert i (GuestRow n (access_token g) (timezone g)
                                    (channel_ids g))))
  | None => raise MissingError
  end.

Definition guest_data (i : Z) (n : str) : pyval :=
  VDict [("id", VInt i); ("name", VStr n)].

Definition _update_name (self : recordset) (name_arg : str) : M unit :=
  i ← ensure_one self;
  let name_arg := strip name_arg in
  if (length name_arg <? 1)%nat then
    raise (UserError "Guest's name cannot be empty.")
  else if (512 <? length name_arg)%nat then
    raise (UserError "Guest's name is too long.")
  else
    write_name self name_arg;;
    n ← read_field name self;
    let data := guest_data i n in
    channels ← read_field channel_ids self;
    let bus_notifs :=
      map (fun channel =>
             (TChannel channel, "mail.record/insert",
              VDict [("Guest", data)])) channels in
    let bus_notifs :=
      bus_notifs
        ++ [(TGuest self, "mail.record/insert", VDict [("Guest", data)])] in
    modify (send bus_notifs).

(** *** Bootstrap *)

(** What [_init_messaging] asks of other models. *)
Record collaborators := Collaborators {
  channel_info : list Z -> pyval;  (* channel_ids._channel_info() *)
  company_name : pyval;            (* env.company.name *)
  tenor_api_key : pyval;           (* get_param("discuss.tenor_api_key") *)
  link_preview_enabled : pyval;    (* _is_link_preview_enabled() *)
  bus_last_id : pyval;             (* _bus_last_id() *)
  odoobot_id : pyval;              (* env.ref('base.partner_root').id *)
  odoobot_name : pyval
}.

Definition _init_messaging (env : collaborators) (self : recordset)
  : M pyval :=
  i ← ensure_one self;
  channels ← read_field channel_ids self;
  n ← read_field name self;
  mret (VDict [
    ("channels", channel_info env channels);
    ("companyName", company_name env);
    ("currentGuest", VDict [("id", VInt i); ("name", VStr n)]);
    ("current_partner", VBool false);
    ("current_user_id", VBool false);
    ("current_user_settings", VBool false);
    ("hasGifPickerFeature", VBool (truthy (tenor_api_key env)));
    ("hasLinkPreviewFeature", link_preview_enabled env);
    ("initBusId", bus_last_id env);
    ("menu_id", VBool false);
    ("needaction_inbox_counter", VBool false);
    ("odoobot", VDict [("id", odoobot_id env); ("name", odoobot_name env)]);
    ("shortcodes", VList []);
    ("starred_counter", VBool false)]).

(** *** Formatting *)

(** [guest.im_status] for one guest of a batch: the framework runs
    [_compute_im_status] on the batch and the guest reads its entry. *)
Definition im_status (i : Z) : M string :=
  res ← _compute_im_status (Recordset [i] false);
  mret (default "offline" (snd <$> head res)).

(** The entry of one guest; [fields] holds the names that are in the
    argument. *)
Definition format_one (fields : list string) (i : Z)
  : M (list (string * pyval)) :=
  let data := [] in
  let data := if bool_decide ("id" ∈ fields)
              then data ++ [("id", VInt i)] else data in
  data ← (if bool_decide ("name" ∈ fields)
          then n ← read_field name (Recordset [i] false);
               mret (data ++ [("name", VStr n)])
          else mret data);
  if bool_decide ("im_status" ∈ fields)
  then s ← im_status i; mret (data ++ [("im_status", VStr (py s))])
  else mret data.

Fixpoint format_loop (fields : list string) (l : list Z)
  (acc : gmap Z (list (string * pyval)))
  : M (gmap Z (list (string * pyval))) :=
  match l with
  | [] => mret acc
  | i :: l' =>
      data ← format_one fields i;
      format_loop fields l' (<[i := data]> acc)
  end.

(** [_guest_format]; an absent or empty [fields] stands for the three
    default names. *)
Definition _guest_format (self : recordset) (fields : list string)
  : M (gmap Z (list (string * pyval))) :=
  let fields := match fields with
                | [] => ["id"; "name"; "im_status"]
                | _ => fields
                end in
  format_loop fields (ids self) ∅.

(** *** The signature of the wrapper *)








(** ** Notions the statements use *)

(** The value [dict(pairs)] holds for a key: that of its last pair. *)
Fixpoint assoc_last (k : Z) (pairs : list (Z * string)) : option string :=
  match pairs with
  | [] => None
  | p :: pairs' =>
      match assoc_last k pairs' with
      | Some v => Some v
      | None => if decide (k = p.1) then Some p.2 else None
      end
  end.

(** A decorated function that calls a decorated function, and so on [n]
    times, down to [func]; each passes on the arguments it received. *)
Fixpoint nested {R} (n : nat) (func : handler R) : handler R :=
  match n with
  | O => func
  | S n' => add_guest_to_context (nested n' func)
  end.

(** A guest that is not empty is in the context of the request. *)
Definition resolved (w : world) : bool :=
  truthy (VGuest (_get_guest_from_context (context w))).

(** The state after the time zone of guest [i], whose row is [g], has been
    taken from the cookie when it can be. *)
Definition tz_world (i : Z) (g : guest_row) (w : world) : world :=
  if field_set (timezone g) then w
  else match _get_timezone_from_request w with
       | Some (c :: t) =>
           if bool_decide (i ∈ row_locked w) then w
           else set_mail_guest
                  (alter (fun g => GuestRow (name g) (access_token g)
                                            (Some (c :: t)) (channel_ids g))
                         i) w
       | _ => w
       end.

(** What the wrapper does once lines 29 to 44 gave the guest [guest] in
    the state [w']. *)
Definition attach {R} (func : handler R) (self : option (gmap string pyval))
    (args : list pyval) (kwargs : gmap string pyval) (guest : recordset)
    (w' : world) : outcome R * world :=
  func (insert "guest" (VGuest guest) <$> self) args
       (delete "guest_token" kwargs)
       (set_context (insert "guest" (VGuest guest)) w').

(** The rows a resolution may leave: the row as it was, or the row with a
    known time zone where it had none. *)
Definition row_kept (before after : option guest_row) : Prop :=
  after = before
  \/ exists g z,
       before = Some g /\ field_set (timezone g) = false
       /\ z ∈ all_timezones
       /\ after = Some (GuestRow (name g) (access_token g) (Some z)
                                 (channel_ids g)).

(** The token [b] for guest [i] is rejected in [w]. *)
Definition rejected (w : world) (i : Z) (b : list N) : Prop :=
  mail_guest w !! i = None
  \/ (exists g, mail_guest w !! i = Some g
                /\ field_set (access_token g) = false)
  \/ (exists g t, mail_guest w !! i = Some g /\ access_token g = Some t
                  /\ is_ascii t = true /\ is_ascii b = true /\ t <> b).

(** The entry [_guest_format] builds for the guest [i] of row [g]. *)
Definition entry_of (fields : list string) (w : world) (i : Z)
    (g : guest_row) : list (string * pyval) :=
  (if bool_decide ("id" ∈ fields) then [("id", VInt i)] else [])
  ++ (if bool_decide ("name" ∈ fields) then [("name", VStr (name g))]
      else [])
  ++ (if bool_decide ("im_status" ∈ fields)
      then [("im_status",
             VStr (py (default "offline"
                         (assoc_last i (presence_query w [i])))))]
      else []).

(** The names [_guest_format] formats: the three default ones when none is
    asked for. *)
Definition format_fields (fields : list string) : list string :=
  match fields with
  | [] => ["id"; "name"; "im_status"]
  | _ => fields
  end.

(** An ASCII digit, and the number a string of digits writes. *)
Definition is_digit (c : N) : bool := ((48 <=? c) && (c <=? 57))%N.

Definition decimal_value (acc : Z) (ds : list N) : Z :=
  foldl (fun acc c => 10 * acc + Z.of_N (c - 48)) acc ds.

(** The statuses from the most to the least present. *)
Definition status_rank (s : string) : nat :=
  if decide (s = "online") then 0
  else if decide (s = "away") then 1
  else 2.

(** The same state at another time. *)
Definition at_time (t : Z) (w : world) : world :=
  World (cookies w) (context w) (mail_guest w) (row_locked w)
        (bus_presence w) t (db_lookups w) (bus w).

(** A function that does nothing. *)
Definition probe : handler unit := fun _ _ _ => mret tt.

(** [d[k]] for a dictionary given by its items. *)
Fixpoint item (k : string) (d : list (string * pyval)) : option pyval :=
  match d with
  | [] => None
  | p :: d' => if decide (p.1 = k) then Some p.2 else item k d'
  end.

(** ** Sample data *)

(** An interpreter that knows no digit outside ASCII and accepts 4300
    digits, two time zones, and the timers of the bus. *)
Definition sample_decimal : N -> option N := fun _ => None.
Definition sample_max_digits : N := 4300%N.
Definition sample_zones : list (list N) := [py "UTC"; py "Europe/Brussels"].
Definition sample_disconnection : Z := 30.
Definition sample_away : Z := 10.

(** Guest 5, in the channels 7 and 8, with no time zone yet. *)
Definition bob : guest_row :=
  GuestRow (py "Bob") (Some (py "s3cret")) None [7; 8].

(** Presence at time 100 s: guest 5 polled 40 s ago, guest 6 polled 5 s ago
    and was present 15 s ago, guest 7 polled 5 s ago and was present 2 s
    ago. *)
Definition sample_presence : list presence_row :=
  [PresenceRow 5 (Some 60000000) (Some 99000000);
   PresenceRow 6 (Some 95000000) (Some 85000000);
   PresenceRow 7 (Some 95000000) (Some 98000000);
   PresenceRow 9 None None].

(** A request with the given cookies and an empty context. *)
Definition sample_request (cookies : gmap string (list N)) : world :=
  World cookies ∅ {[ 5 := bob ]} ∅ sample_presence 100000000 0 [].

Definition w_valid : world :=
  sample_request {[ "dgid" := py "5|s3cret"; "tz" := py "UTC" ]}.
Definition w_wrong : world :=
  sample_request {[ "dgid" := py "5|wrong" ]}.
Definition w_plain : world := sample_request ∅.

Definition sample_env : collaborators :=
  Collaborators (fun _ => VList []) (VStr (py "YourCompany")) (VBool false)
                (VBool true) (VInt 12) (VInt 2) (VStr (py "OdooBot")).

(** ** Properties *)

(** Unfolding of the monad, used by the proofs below. *)
Ltac run_M :=
  unfold mbind, M_bind, mret, M_ret, raise, gets, modify, lift in *;
  simpl in *.

Lemma ensure_one_single (i : Z) (b : bool) (w : world) :
  ensure_one (Recordset [i] b) w = (Ok i, w).
Proof. reflexivity. Qed.

Lemma read_field_single {A} (f : guest_row -> A) i b w g :
  mail_guest w !! i = Some g ->
  read_field f (Recordset [i] b) w = (Ok (f g), w).
Proof. intros H. unfold read_field. run_M. by rewrite H. Qed.

Lemma read_field_missing {A} (f : guest_row -> A) i b w :
  mail_guest w !! i = None ->
  read_field f (Recordset [i] b) w = (Raise MissingError, w).
Proof. intros H. unfold read_field. run_M. by rewrite H. Qed.

(** *** Selection of the token *)

Lemma truthy_str (s : str) : truthy (VStr s) = field_set (Some s).
Proof. by destruct s. Qed.

(** C3: with no guest resolved yet, the candidate token is the explicit
    [guest_token] argument when it is present and not empty, otherwise the
    cookie [dgid] when it is present and not empty, otherwise the
    [guest_token] entry of the context (the empty string when there is
    none); a source of higher priority that is present makes the result
    independent of the sources below it. *)
Theorem select_token_priority (guest_token : option (list N)) (w : world) :
  let absent_or_empty (o : option (list N)) := o = None \/ o = Some [] in
  let arg := from_option VStr VNone guest_token in
  (forall t, guest_token = Some t -> t <> [] ->
     forall w', select_token arg w' = VStr t)
  /\ (absent_or_empty guest_token ->
      forall c, cookies w !! _cookie_name = Some c -> c <> [] ->
        select_token arg w = VStr c
        /\ forall ctx', select_token arg (set_context (fun _ => ctx') w)
                        = VStr c)
  /\ (absent_or_empty guest_token ->
      absent_or_empty (cookies w !! _cookie_name) ->
      select_token arg w = default (VStr []) (context w !! "guest_token")).
Proof.
  intros absent_or_empty arg. subst arg. repeat split.
  - intros t -> Ht w'. unfold select_token, py_or. simpl.
    destruct t; [done|]. reflexivity.
  - destruct H as [-> | ->]; unfold select_token, py_or; simpl;
      rewrite H0; simpl; destruct c; done.
  - intros ctx'.
    destruct H as [-> | ->]; unfold select_token, py_or; simpl;
      rewrite H0; simpl; destruct c; done.
  - intros Ha Hc. unfold select_token, py_or.
    destruct Ha as [-> | ->], Hc as [-> | ->]; reflexivity.
Qed.

(** *** The name of a guest *)

(** The run of [_update_name] on one existing guest, in full. *)
Lemma update_name_run (w : world) (i : Z) (b : bool) (g : guest_row)
    (s : list N) :
  mail_guest w !! i = Some g ->
  _update_name (Recordset [i] b) s w =
    if (length (strip s) <? 1)%nat then
      (Raise (UserError "Guest's name cannot be empty."), w)
    else if (512 <? length (strip s))%nat then
      (Raise (UserError "Guest's name is too long."), w)
    else
      let data := VDict [("Guest", guest_data i (strip s))] in
      (Ok tt,
       send (map (fun c => (TChannel c, "mail.record/insert", data))
                 (channel_ids g)
               ++ [(TGuest (Recordset [i] b), "mail.record/insert", data)])
            (set_mail_guest
               (insert i (GuestRow (strip s) (access_token g) (timezone g)
                                   (channel_ids g))) w)).
Proof.
  intros Hg. unfold _update_name, write_name, read_field. run_M.
  destruct (length (strip s) <? 1)%nat; [done|].
  destruct (512 <? length (strip s))%nat; [done|].
  simpl. rewrite Hg.
  repeat (progress (simpl; rewrite ?lookup_insert_eq)). reflexivity.
Qed.

(** C4: [_update_name] on one guest strips the white space around the
    name, raises the validation error exactly when the stripped name is
    empty or longer than 512 characters, and otherwise stores exactly the
    stripped name. *)
Theorem update_name_validates (w : world) (i : Z) (b : bool)
    (g : guest_row) (s : list N) :
  mail_guest w !! i = Some g ->
  let r := _update_name (Recordset [i] b) s w in
  ((exists msg, r.1 = Raise (UserError msg))
     <-> (length (strip s) = 0 \/ 512 < length (strip s))%nat)
  /\ ((1 <= length (strip s) <= 512)%nat ->
      r.1 = Ok tt /\ name <$> (mail_guest r.2 !! i) = Some (strip s)).
Proof.
  intros Hg r. subst r. rewrite (update_name_run _ _ _ _ _ Hg).
  destruct (length (strip s) <? 1)%nat eqn:E1.
  { apply Nat.ltb_lt in E1. simpl. split; [split; [lia | eauto] | lia]. }
  apply Nat.ltb_ge in E1.
  destruct (512 <? length (strip s))%nat eqn:E2.
  { apply Nat.ltb_lt in E2. simpl. split; [split; [lia | eauto] | lia]. }
  apply Nat.ltb_ge in E2. simpl. split.
  - split; [intros [msg Hm]; discriminate | lia].
  - intros _. split; [done|]. by rewrite lookup_insert_eq.
Qed.

(** The run of [_update_name] when the record has no row. *)
Lemma update_name_missing (w : world) (i : Z) (b : bool) (s : list N) :
  mail_guest w !! i = None ->
  _update_name (Recordset [i] b) s w =
    if (length (strip s) <? 1)%nat then
      (Raise (UserError "Guest's name cannot be empty."), w)
    else if (512 <? length (strip s))%nat then
      (Raise (UserError "Guest's name is too long."), w)
    else (Raise MissingError, w).
Proof.
  intros Hg. unfold _update_name, write_name, read_field. run_M.
  destruct (length (strip s) <? 1)%nat; [done|].
  destruct (512 <? length (strip s))%nat; [done|].
  simpl. by rewrite Hg.
Qed.

Lemma update_name_not_one (w : world) (self : recordset) (s : list N) :
  length (ids self) <> 1%nat ->
  _update_name self s w = (Raise ValueError, w).
Proof.
  intros Hn. unfold _update_name, ensure_one. run_M.
  destruct (ids self) as [|i [|]]; simpl in *; done.
Qed.

(** Whatever [_update_name] raises, it raises before it writes. *)
Lemma update_name_raise_world (w : world) (self : recordset) (s : list N)
    (e : exn) :
  (_update_name self s w).1 = Raise e -> (_update_name self s w).2 = w.
Proof.
  destruct (decide (length (ids self) = 1%nat)) as [H1|H1].
  - destruct self as [[|i [|]] b]; simpl in H1; try done.
    destruct (mail_guest w !! i) as [g|] eqn:Hg.
    + rewrite (update_name_run _ _ _ _ _ Hg).
      repeat case_match; simpl; done.
    + rewrite (update_name_missing _ _ _ _ Hg).
      repeat case_match; simpl; done.
  - by rewrite update_name_not_one.
Qed.

(** C5: when [_update_name] raises the validation error, nothing has been
    written and nothing has been sent: the table of guests and the bus are
    as they were before the call. *)
Theorem update_name_error_atomic (w : world) (self : recordset)
    (s : list N) (msg : string) :
  (_update_name self s w).1 = Raise (UserError msg) ->
  mail_guest (_update_name self s w).2 = mail_guest w
  /\ bus (_update_name self s w).2 = bus w
  /\ (_update_name self s w).2 = w.
Proof.
  intros H. by rewrite (update_name_raise_world _ _ _ _ H).
Qed.

(** C6: every successful [_update_name] hands the bus one notification per
    channel of the guest, followed by one addressed to the guest itself;
    each is a [mail.record/insert] whose payload holds exactly the id of the
    guest and the name now stored, which is the stripped name. *)
Theorem update_name_notifies (w : world) (i : Z) (b : bool)
    (g : guest_row) (s : list N) :
  mail_guest w !! i = Some g ->
  (_update_name (Recordset [i] b) s w).1 = Ok tt ->
  let w' := (_update_name (Recordset [i] b) s w).2 in
  exists ns : list notification,
    bus w' = bus w ++ ns
    /\ length ns = S (length (channel_ids g))
    /\ (fun n => n.1.1) <$> ns
       = (TChannel <$> channel_ids g) ++ [TGuest (Recordset [i] b)]
    /\ name <$> (mail_guest w' !! i) = Some (strip s)
    /\ Forall (fun n : notification =>
                 n.1.2 = "mail.record/insert"
                 /\ n.2 = VDict [("Guest", VDict [("id", VInt i);
                                                  ("name", VStr (strip s))])])
              ns.
Proof.
  intros Hg. rewrite (update_name_run _ _ _ _ _ Hg).
  destruct (length (strip s) <? 1)%nat; [done|].
  destruct (512 <? length (strip s))%nat; [done|].
  intros _. simpl. eexists. split; [reflexivity|].
  split; [|split; [|split]].
  - rewrite length_app, length_map. simpl. lia.
  - rewrite fmap_app, <- list_fmap_compose. reflexivity.
  - by rewrite lookup_insert_eq.
  - apply Forall_app. split.
    + apply Forall_forall. intros n Hn.
      apply list_elem_of_fmap in Hn as (c & -> & _). done.
    + by repeat constructor.
Qed.

(** *** Presence *)

Lemma foldl_insert_lookup (pairs : list (Z * string)) (m : gmap Z string)
    (k : Z) :
  foldl (fun m p => <[p.1 := p.2]> m) m pairs !! k
  = match assoc_last k pairs with Some v => Some v | None => m !! k end.
Proof.
  revert m. induction pairs as [|p pairs IH]; intros m; simpl; [done|].
  rewrite IH. destruct (assoc_last k pairs); [done|].
  destruct (decide (k = p.1)) as [->|Hne].
  - by rewrite lookup_insert_eq.
  - by rewrite lookup_insert_ne.
Qed.

Lemma dict_of_lookup (pairs : list (Z * string)) (k : Z) :
  dict_of pairs !! k = assoc_last k pairs.
Proof.
  unfold dict_of. rewrite foldl_insert_lookup, lookup_empty.
  by destruct (assoc_last k pairs).
Qed.

Lemma assoc_last_None (k : Z) (pairs : list (Z * string)) :
  k ∉ pairs.*1 -> assoc_last k pairs = None.
Proof.
  induction pairs as [|p pairs IH]; simpl; [done|].
  intros Hn. apply not_elem_of_cons in Hn as [Hk Hn].
  rewrite IH by done. by destruct (decide (k = p.1)).
Qed.

Lemma presence_query_keys (w : world) (sel : list Z) :
  (presence_query w sel).*1
  = guest_id <$> filter (fun r => guest_id r ∈ sel) (bus_presence w).
Proof.
  unfold presence_query. rewrite <- list_fmap_compose.
  reflexivity.
Qed.

(** With one row per guest, the query gives the status of that row. *)
Lemma presence_query_row (w : world) (sel : list Z) (r : presence_row) :
  NoDup (guest_id <$> bus_presence w) ->
  r ∈ bus_presence w -> guest_id r ∈ sel ->
  assoc_last (guest_id r) (presence_query w sel) = Some (status_of_row w r).
Proof.
  unfold presence_query.
  induction (bus_presence w) as [|a rows IH]; intros Hnd Hr Hsel.
  { by apply elem_of_nil in Hr. }
  rewrite fmap_cons in Hnd. apply NoDup_cons in Hnd as [Ha Hnd].
  rewrite filter_cons. apply elem_of_cons in Hr as [->|Hr].
  - rewrite decide_True by done. simpl.
    rewrite assoc_last_None.
    + by rewrite decide_True.
    + rewrite <- list_fmap_compose. intros Hin.
      apply list_elem_of_fmap in Hin as (x & Hx & Hin).
      apply list_elem_of_filter in Hin as [_ Hin].
      apply Ha. apply list_elem_of_fmap. exists x. done.
  - specialize (IH Hnd Hr Hsel).
    destruct (decide (guest_id a ∈ sel)); simpl; by rewrite ?IH.
Qed.

Lemma presence_query_no_row (w : world) (sel : list Z) (i : Z) :
  (forall r, r ∈ bus_presence w -> guest_id r <> i) ->
  assoc_last i (presence_query w sel) = None.
Proof.
  intros Hno. apply assoc_last_None. rewrite presence_query_keys.
  intros Hin. apply list_elem_of_fmap in Hin as (x & -> & Hin).
  apply list_elem_of_filter in Hin as [_ Hin]. by apply (Hno x).
Qed.

(** The run of [_compute_im_status] on a record set that is not empty. *)
Lemma compute_im_status_run (w : world) (self : recordset) :
  ids self <> [] ->
  _compute_im_status self w
  = (Ok ((fun i => (i, default "offline"
                        (assoc_last i (presence_query w (ids self)))))
           <$> ids self), w).
Proof.
  intros Hne. unfold _compute_im_status.
  destruct (ids self) as [|i l] eqn:E; [done|].
  unfold mbind, M_bind, mret, M_ret, gets.
  f_equal. f_equal. apply list_fmap_ext. intros _ j _.
  by rewrite dict_of_lookup.
Qed.

(** C7: a guest whose last poll is older than the disconnection timer is
    offline whatever its last presence; otherwise it is away when its last
    presence is older than the away timer, and online when it is not; a
    guest with no presence row is offline.  The table holds at most one row
    per guest. *)
Theorem im_status_classification (w : world) (self : recordset) (i : Z) :
  i ∈ ids self ->
  NoDup (guest_id <$> bus_presence w) ->
  exists res : list (Z * string),
    _compute_im_status self w = (Ok res, w)
    /\ res.*1 = ids self
    /\ forall st, (i, st) ∈ res ->
         ((forall r, r ∈ bus_presence w -> guest_id r <> i) ->
            st = "offline")
         /\ (forall r p, r ∈ bus_presence w -> guest_id r = i ->
               last_poll r = Some p ->
               seconds DISCONNECTION_TIMER < now w - p ->
               st = "offline")
         /\ (forall r p q, r ∈ bus_presence w -> guest_id r = i ->
               last_poll r = Some p -> last_presence r = Some q ->
               now w - p <= seconds DISCONNECTION_TIMER ->
               seconds AWAY_TIMER < now w - q ->
               st = "away")
         /\ (forall r p q, r ∈ bus_presence w -> guest_id r = i ->
               last_poll r = Some p -> last_presence r = Some q ->
               now w - p <= seconds DISCONNECTION_TIMER ->
               now w - q <= seconds AWAY_TIMER ->
               st = "online").
Proof.
  intros Hi Hnd.
  assert (Hne : ids self <> []) by (intros E; rewrite E in Hi; inversion Hi).
  rewrite (compute_im_status_run _ _ Hne). eexists. split; [reflexivity|].
  split.
  { rewrite <- list_fmap_compose. apply list_fmap_id. }
  intros st Hst. apply list_elem_of_fmap in Hst as (j & Hj & _).
  inversion Hj; subst j st; clear Hj.
  assert (Hrow : forall r, r ∈ bus_presence w -> guest_id r = i ->
            default "offline" (assoc_last i (presence_query w (ids self)))
            = status_of_row w r).
  { intros r Hr <-. by rewrite presence_query_row. }
  repeat split.
  - intros Hno. by rewrite presence_query_no_row.
  - intros r p Hr Hg Hp Hlt. rewrite (Hrow r Hr Hg).
    unfold status_of_row, older_than. rewrite Hp.
    by rewrite (proj2 (Z.ltb_lt _ _) Hlt).
  - intros r p q Hr Hg Hp Hq Hle Hlt. rewrite (Hrow r Hr Hg).
    unfold status_of_row, older_than. rewrite Hp, Hq.
    rewrite (proj2 (Z.ltb_ge _ _) Hle).
    by rewrite (proj2 (Z.ltb_lt _ _) Hlt).
  - intros r p q Hr Hg Hp Hq Hle Hle'. rewrite (Hrow r Hr Hg).
    unfold status_of_row, older_than. rewrite Hp, Hq.
    rewrite (proj2 (Z.ltb_ge _ _) Hle).
    by rewrite (proj2 (Z.ltb_ge _ _) Hle').
Qed.

(** *** Bootstrap *)

(** C8: the payload [_init_messaging] builds for a guest has exactly the
    fourteen keys of the bootstrap, [current_partner], [current_user_id]
    and [current_user_settings] are [False], and [currentGuest] and
    [odoobot] hold exactly an id and a name. *)
Theorem init_messaging_payload (env : collaborators) (w : world) (i : Z)
    (b : bool) (g : guest_row) :
  mail_guest w !! i = Some g ->
  exists d : list (string * pyval),
    _init_messaging env (Recordset [i] b) w = (Ok (VDict d), w)
    /\ d.*1 = ["channels"; "companyName"; "currentGuest"; "current_partner";
               "current_user_id"; "current_user_settings";
               "hasGifPickerFeature"; "hasLinkPreviewFeature"; "initBusId";
               "menu_id"; "needaction_inbox_counter"; "odoobot";
               "shortcodes"; "starred_counter"]
    /\ item "current_partner" d = Some (VBool false)
    /\ item "current_user_id" d = Some (VBool false)
    /\ item "current_user_settings" d = Some (VBool false)
    /\ item "currentGuest" d
       = Some (VDict [("id", VInt i); ("name", VStr (name g))])
    /\ exists bot, item "odoobot" d = Some (VDict bot)
                   /\ bot.*1 = ["id"; "name"].
Proof.
  intros Hg. unfold _init_messaging, mbind, M_bind.
  rewrite ensure_one_single, !(read_field_single _ _ _ _ _ Hg).
  eexists. split; [reflexivity|]. repeat split; eauto.
Qed.

(** *** The decorator *)

Lemma resolved_spec (w : world) :
  resolved w = true
  <-> exists g, context w !! "guest" = Some (VGuest g) /\ ids g <> [].
Proof.
  unfold resolved, _get_guest_from_context. split.
  - destruct (context w !! "guest") as [[]|]; simpl; try done.
    intros H. eexists. split; [done|]. by destruct (ids r).
  - intros (g & -> & Hg). simpl. by destruct (ids g).
Qed.

Lemma unresolved_ids (w : world) :
  resolved w = false -> ids (_get_guest_from_context (context w)) = [].
Proof.
  unfold resolved. simpl.
  by destruct (ids (_get_guest_from_context (context w))).
Qed.

(** The look-up of one id. *)
Lemma exists_browse (i : Z) (w : world) :
  exists_ (sudo true (browse i)) w
  = (Ok (Recordset (match mail_guest w !! i with
                    | Some _ => [i]
                    | None => []
                    end) true),
     count_lookup w).
Proof.
  unfold exists_. simpl. rewrite filter_cons, filter_nil.
  destruct (mail_guest w !! i) eqn:E.
  - rewrite decide_True; [done | eauto].
  - rewrite decide_False; [done | by intros [x Hx]].
Qed.

(** The run of lines 35 to 43 on a token of two parts whose first part
    reads as the integer [i]. *)
Lemma guest_of_parts_run (guest : recordset) (a b : list N) (i : Z)
    (w : world) :
  int_of_str unicode_decimal int_max_str_digits a = Some i ->
  guest_of_parts guest [a; b] w
  = let w1 := count_lookup w in
    match mail_guest w !! i with
    | None => (Ok no_guest, w1)
    | Some g =>
        match access_token g with
        | Some (c :: t) =>
            match consteq (c :: t) b with
            | Raise e => (Raise e, w1)
            | Ok false => (Ok no_guest, w1)
            | Ok true => (Ok (Recordset [i] true), tz_world i g w1)
            end
        | _ => (Ok no_guest, w1)
        end
    end.
Proof.
  intros Hi. unfold guest_of_parts, int. rewrite Hi.
  unfold mbind at 1. unfold M_bind at 1. unfold mret at 1. unfold M_ret at 1.
  unfold mbind at 1. unfold M_bind at 1. rewrite exists_browse.
  destruct (mail_guest w !! i) as [g|] eqn:Hg; [|reflexivity].
  assert (Hg' : mail_guest (count_lookup w) !! i = Some g) by done.
  cbn [truthy ids negb].
  unfold mbind at 1. unfold M_bind at 1.
  rewrite (read_field_single _ _ _ _ _ Hg').
  destruct (access_token g) as [[|c t]|]; try reflexivity.
  unfold mbind at 1. unfold M_bind at 1. unfold lift at 1.
  destruct (consteq (c :: t) b) as [[]|]; try reflexivity.
  cbn [negb].
  unfold mbind at 1. unfold M_bind at 1.
  rewrite (read_field_single _ _ _ _ _ Hg').
  unfold tz_world. destruct (field_set (timezone g)); [reflexivity|].
  cbn [negb]. unfold mbind at 1. unfold M_bind at 1. unfold gets at 1.
  destruct (_get_timezone_from_request (count_lookup w)) as [[|c' t']|];
    try reflexivity.
Qed.

(** On a token of another number of parts the guest is left as it was. *)
Lemma guest_of_parts_other (guest : recordset) (parts : list (list N))
    (w : world) :
  length parts <> 2%nat -> guest_of_parts guest parts w = (Ok guest, w).
Proof. intros H. by destruct parts as [|a [|b [|c l]]]. Qed.

Lemma guest_of_parts_not_int (guest : recordset) (a b : list N) (w : world) :
  int_of_str unicode_decimal int_max_str_digits a = None ->
  guest_of_parts guest [a; b] w = (Raise ValueError, w).
Proof. intros H. unfold guest_of_parts, int. by rewrite H. Qed.

(** The empty guest of the context does not matter but for being empty. *)
Lemma guest_of_token_empty (guest : recordset) (guest_token : pyval)
    (w : world) :
  ids guest = [] ->
  guest_of_token guest guest_token w = guest_of_token no_guest guest_token w.
Proof.
  intros Hg. unfold guest_of_token, mbind, M_bind, gets.
  destruct (split_token (select_token guest_token w) w) as [[parts|e] w'];
    [|done].
  destruct parts as [|a [|b [|c l]]]; try done;
    simpl; unfold sudo, no_guest; simpl; by rewrite Hg.
Qed.

(** The two paths of the wrapper. *)
Lemma wrapper_short {R} (func : handler R) self args kwargs (w : world) :
  resolved w = true ->
  add_guest_to_context func self args kwargs w
  = func self args (delete "guest_token" kwargs) w.
Proof.
  unfold resolved, add_guest_to_context, mbind, M_bind, gets.
  by intros ->.
Qed.

Lemma wrapper_resolve {R} (func : handler R) self args kwargs (w : world) :
  resolved w = false ->
  add_guest_to_context func self args kwargs w
  = match guest_of_token no_guest (default VNone (kwargs !! "guest_token")) w
    with
    | (Ok guest, w') =>
        func (insert "guest" (VGuest guest) <$> self) args
             (delete "guest_token" kwargs)
             (set_context (insert "guest" (VGuest guest)) w')
    | (Raise e, w') => (Raise e, w')
    end.
Proof.
  intros Hr. pose proof (unresolved_ids _ Hr) as Hids.
  unfold resolved in Hr.
  unfold add_guest_to_context, mbind, M_bind, gets. rewrite Hr.
  rewrite (guest_of_token_empty _ _ _ Hids).
  destruct (guest_of_token no_guest _ w) as [[guest|e] w']; reflexivity.
Qed.

(** C10: the wrapper calls the decorated function with the keyword
    arguments it received less [guest_token], and with the same positional
    arguments, on the path where a guest is already in the context as on
    the other one; when it raises it has not called the function. *)
Theorem wrapper_strips_guest_token self (args : list pyval)
    (kwargs : gmap string pyval) (w : world) :
  let kwargs' := delete "guest_token" kwargs in
  kwargs' !! "guest_token" = None
  /\ (forall k, k <> "guest_token" -> kwargs' !! k = kwargs !! k)
  /\ ((exists self' w', forall R (func : handler R),
         add_guest_to_context func self args kwargs w
         = func self' args kwargs' w')
      \/ (exists e w', forall R (func : handler R),
            add_guest_to_context func self args kwargs w = (Raise e, w')))
  /\ (resolved w = true -> forall R (func : handler R),
        add_guest_to_context func self args kwargs w
        = func self args kwargs' w).
Proof.
  intros kwargs'. subst kwargs'. split; [apply lookup_delete_eq|].
  split; [intros k Hk; by apply lookup_delete_ne|].
  split.
  - destruct (resolved w) eqn:Hr.
    + left. exists self, w. intros R func. by apply wrapper_short.
    + destruct (guest_of_token no_guest
                  (default VNone (kwargs !! "guest_token")) w)
        as [[guest|e] w'] eqn:Hg.
      * left. eexists _, _. intros R func.
        rewrite (wrapper_resolve _ _ _ _ _ Hr), Hg. reflexivity.
      * right. exists e, w'. intros R func.
        by rewrite (wrapper_resolve _ _ _ _ _ Hr), Hg.
  - intros Hr R func. by apply wrapper_short.
Qed.

(** C1: a token made of two parts whose first part is not an integer
    literal (the empty string, for one) makes the wrapper raise
    [ValueError] instead of going on with the empty guest. *)
Theorem non_numeric_id_raises {R} (func : handler R) self args kwargs
    (w : world) (tok a b : list N) :
  resolved w = false ->
  select_token (default VNone (kwargs !! "guest_token")) w = VStr tok ->
  split _cookie_separator tok = [a; b] ->
  int_of_str unicode_decimal int_max_str_digits a = None ->
  add_guest_to_context func self args kwargs w = (Raise ValueError, w).
Proof.
  intros Hr Htok Hsplit Hint. rewrite (wrapper_resolve _ _ _ _ _ Hr).
  unfold guest_of_token, mbind, M_bind, gets. rewrite Htok. simpl.
  unfold mret, M_ret. rewrite Hsplit.
  by rewrite (guest_of_parts_not_int _ _ _ _ Hint).
Qed.

(** With a guest in the context, nested decorated calls all fall through. *)
Lemma nested_short {R} (func : handler R) self args (w : world) :
  resolved w = true ->
  forall n kwargs,
    nested (S n) func self args kwargs w
    = func self args (delete "guest_token" kwargs) w.
Proof.
  intros Hr. induction n as [|n IH]; intros kwargs.
  - by apply wrapper_short.
  - change (nested (S (S n)) func)
      with (add_guest_to_context (nested (S n) func)).
    rewrite (wrapper_short _ _ _ _ _ Hr), IH.
    by rewrite delete_delete_eq.
Qed.

Lemma consteq_refl (s : list N) :
  is_ascii s = true -> consteq s s = Ok true.
Proof.
  intros H. unfold consteq. rewrite H. simpl.
  by rewrite bool_decide_eq_true_2.
Qed.

Lemma db_lookups_tz_world i g w :
  db_lookups (tz_world i g w) = db_lookups w.
Proof. unfold tz_world. by repeat case_match. Qed.

Lemma context_tz_world i g w : context (tz_world i g w) = context w.
Proof. unfold tz_world. by repeat case_match. Qed.

(** The run of lines 29 to 44 on the token of an existing guest. *)
Lemma guest_of_token_valid (guest_token : pyval) (w : world)
    (tok a b : list N) (i : Z) (g : guest_row) :
  select_token guest_token w = VStr tok ->
  split _cookie_separator tok = [a; b] ->
  int_of_str unicode_decimal int_max_str_digits a = Some i ->
  mail_guest w !! i = Some g ->
  access_token g = Some b -> b <> [] -> is_ascii b = true ->
  guest_of_token no_guest guest_token w
  = (Ok (Recordset [i] false), tz_world i g (count_lookup w)).
Proof.
  intros Htok Hsplit Hint Hg Hb Hne Hascii.
  unfold guest_of_token, mbind, M_bind, gets. rewrite Htok. simpl.
  unfold mret, M_ret. rewrite Hsplit.
  rewrite (guest_of_parts_run _ _ _ _ _ Hint). simpl. rewrite Hg, Hb.
  destruct b as [|c t]; [done|]. by rewrite consteq_refl.
Qed.

(** C2: when a guest that is not empty is already in the context of the
    request, decorated functions nested to any depth reach the innermost
    one with the state unchanged: no look-up is made.  Hence a request
    that carries the token of an existing guest makes exactly one look-up,
    however deep the nesting. *)
Theorem resolution_short_circuit self (args : list pyval)
    (kwargs : gmap string pyval) (w : world) :
  (resolved w = true ->
     forall n R (func : handler R),
       nested (S n) func self args kwargs w
       = func self args (delete "guest_token" kwargs) w)
  /\ (forall tok a b i g,
        resolved w = false ->
        select_token (default VNone (kwargs !! "guest_token")) w = VStr tok ->
        split _cookie_separator tok = [a; b] ->
        int_of_str unicode_decimal int_max_str_digits a = Some i ->
        mail_guest w !! i = Some g ->
        access_token g = Some b -> b <> [] -> is_ascii b = true ->
        exists self' w',
          db_lookups w' = S (db_lookups w)
          /\ context w' !! "guest" = Some (VGuest (Recordset [i] false))
          /\ forall n R (func : handler R),
               nested (S n) func self args kwargs w
               = func self' args (delete "guest_token" kwargs) w').
Proof.
  split.
  - intros Hr n R func. by apply nested_short.
  - intros tok a b i g Hr Htok Hsplit Hint Hg Hb Hne Hascii.
    pose proof (guest_of_token_valid _ _ _ _ _ _ _
                  Htok Hsplit Hint Hg Hb Hne Hascii) as Hrun.
    eexists _, _. split; [|split]; cycle 2.
    + intros n R func.
      change (nested (S n) func) with (add_guest_to_context (nested n func)).
      rewrite (wrapper_resolve _ _ _ _ _ Hr), Hrun.
      destruct n as [|n]; [reflexivity|].
      rewrite nested_short.
      * by rewrite delete_delete_eq.
      * apply resolved_spec. eexists. split; [apply lookup_insert_eq|done].
    + simpl. by rewrite db_lookups_tz_world.
    + simpl. apply lookup_insert_eq.
Qed.

(** The run of lines 29 to 44, in full. *)
Lemma guest_of_token_run (guest_token : pyval) (w : world) :
  guest_of_token no_guest guest_token w
  = match select_token guest_token w with
    | VStr tok =>
        match split _cookie_separator tok with
        | [a; b] =>
            match int_of_str unicode_decimal int_max_str_digits a with
            | None => (Raise ValueError, w)
            | Some i =>
                let w1 := count_lookup w in
                match mail_guest w !! i with
                | None => (Ok no_guest, w1)
                | Some g =>
                    match access_token g with
                    | Some (c :: t) =>
                        match consteq (c :: t) b with
                        | Raise e => (Raise e, w1)
                        | Ok false => (Ok no_guest, w1)
                        | Ok true => (Ok (Recordset [i] false),
                                      tz_world i g w1)
                        end
                    | _ => (Ok no_guest, w1)
                    end
                end
            end
        | _ => (Ok no_guest, w)
        end
    | _ => (Raise AttributeError, w)
    end.
Proof.
  unfold guest_of_token, mbind, M_bind, gets.
  destruct (select_token guest_token w) as [| | |tok| | |]; try reflexivity.
  simpl. unfold mret, M_ret.
  destruct (split _cookie_separator tok) as [|a [|b [|c l]]] eqn:Hs;
    try reflexivity.
  destruct (int_of_str unicode_decimal int_max_str_digits a) as [i|] eqn:Hi.
  - rewrite (guest_of_parts_run _ _ _ _ _ Hi). simpl.
    destruct (mail_guest w !! i) as [g|]; [|reflexivity].
    destruct (access_token g) as [[|c t]|]; try reflexivity.
    destruct (consteq (c :: t) b) as [[]|]; reflexivity.
  - by rewrite (guest_of_parts_not_int _ _ _ _ Hi).
Qed.

(** X1: a token that does not split in two parts gives the empty guest, with
    no look-up. *)
Theorem wrong_part_count_anonymous {R} (func : handler R) self args kwargs
    (w : world) (tok : list N) :
  resolved w = false ->
  select_token (default VNone (kwargs !! "guest_token")) w = VStr tok ->
  length (split _cookie_separator tok) <> 2%nat ->
  add_guest_to_context func self args kwargs w
  = attach func self args kwargs no_guest w.
Proof.
  intros Hr Htok Hlen. rewrite (wrapper_resolve _ _ _ _ _ Hr).
  rewrite guest_of_token_run, Htok.
  by destruct (split _cookie_separator tok) as [|a [|b [|c l]]].
Qed.

(** The run of lines 29 to 44 on a rejected token. *)
Lemma guest_of_token_rejected (guest_token : pyval) (w : world)
    (tok a b : list N) (i : Z) :
  select_token guest_token w = VStr tok ->
  split _cookie_separator tok = [a; b] ->
  int_of_str unicode_decimal int_max_str_digits a = Some i ->
  rejected w i b ->
  guest_of_token no_guest guest_token w = (Ok no_guest, count_lookup w).
Proof.
  intros Htok Hsplit Hint Hcase.
  rewrite guest_of_token_run, Htok, Hsplit, Hint. simpl.
  destruct Hcase as [-> | [(g & -> & Hf) | (g & t & -> & Ht & Ha & Hb & Hne)]].
  - reflexivity.
  - by destruct (access_token g) as [[|c t]|].
  - rewrite Ht. destruct t as [|c t]; [reflexivity|].
    unfold consteq. rewrite Ha, Hb. simpl.
    by rewrite bool_decide_eq_false_2.
Qed.

(** X2: a token of two parts whose id has no row, or whose guest has no access
    token, or whose secret differs from the access token, gives the empty
    guest after one look-up; the table of guests is not written. *)
Theorem rejected_token_anonymous {R} (func : handler R) self args kwargs
    (w : world) (tok a b : list N) (i : Z) :
  resolved w = false ->
  select_token (default VNone (kwargs !! "guest_token")) w = VStr tok ->
  split _cookie_separator tok = [a; b] ->
  int_of_str unicode_decimal int_max_str_digits a = Some i ->
  rejected w i b ->
  add_guest_to_context func self args kwargs w
  = attach func self args kwargs no_guest (count_lookup w).
Proof.
  intros Hr Htok Hsplit Hint Hrej. rewrite (wrapper_resolve _ _ _ _ _ Hr).
  by rewrite (guest_of_token_rejected _ _ _ _ _ _ Htok Hsplit Hint Hrej).
Qed.

(** X3: a guest that is not empty gets into the context only through a token
    that names its id and carries its access token; it is attached without
    the elevated rights of the look-up. *)
Theorem resolved_guest_authentic self args kwargs (w w' : world)
    (g : recordset) :
  resolved w = false ->
  add_guest_to_context probe self args kwargs w = (Ok tt, w') ->
  context w' !! "guest" = Some (VGuest g) ->
  ids g <> [] ->
  exists tok a b i row,
    select_token (default VNone (kwargs !! "guest_token")) w = VStr tok
    /\ split _cookie_separator tok = [a; b]
    /\ int_of_str unicode_decimal int_max_str_digits a = Some i
    /\ mail_guest w !! i = Some row
    /\ access_token row = Some b
    /\ g = Recordset [i] false.
Proof.
  intros Hr Hrun Hctx Hne. rewrite (wrapper_resolve _ _ _ _ _ Hr) in Hrun.
  rewrite guest_of_token_run in Hrun.
  assert (Hno : forall w0, (Ok tt, set_context (insert "guest" (VGuest no_guest)) w0)
                           = (Ok tt, w') -> False).
  { intros w0 Heq. inversion Heq; subst w'. simpl in Hctx.
    rewrite lookup_insert_eq in Hctx. inversion Hctx; subst g. done. }
  destruct (select_token _ w) as [| | |tok| | |]; try done.
  destruct (split _cookie_separator tok) as [|a [|b [|c l]]] eqn:Hs;
    try (exfalso; by eapply Hno).
  destruct (int_of_str unicode_decimal int_max_str_digits a) as [i|] eqn:Hi;
    [|done].
  simpl in Hrun.
  destruct (mail_guest w !! i) as [row|] eqn:Hrow;
    [|exfalso; by eapply Hno].
  destruct (access_token row) as [[|c t]|] eqn:Ht;
    try (exfalso; by eapply Hno).
  unfold consteq in Hrun.
  destruct (is_ascii (c :: t) && is_ascii b); [|done].
  destruct (bool_decide (c :: t = b)) eqn:Hb;
    [|exfalso; by eapply Hno].
  apply bool_decide_eq_true_1 in Hb. subst b.
  unfold probe, mret, M_ret in Hrun. inversion Hrun; subst w'.
  simpl in Hctx. rewrite lookup_insert_eq in Hctx.
  inversion Hctx; subst g.
  exists tok, a, (c :: t), i, row. done.
Qed.

(** *** The time zone *)

(** X4: the first valid token of a guest without a time zone stores the time
    zone of the cookie [tz], when that names a known time zone and no other
    transaction holds the row; when the row is locked nothing is written
    and the request goes on all the same. *)
Theorem timezone_from_cookie {R} (func : handler R) self args kwargs
    (w : world) (tok a b z : list N) (i : Z) (g : guest_row) :
  resolved w = false ->
  select_token (default VNone (kwargs !! "guest_token")) w = VStr tok ->
  split _cookie_separator tok = [a; b] ->
  int_of_str unicode_decimal int_max_str_digits a = Some i ->
  mail_guest w !! i = Some g ->
  access_token g = Some b -> b <> [] -> is_ascii b = true ->
  field_set (timezone g) = false ->
  cookies w !! "tz" = Some z -> z ∈ all_timezones -> z <> [] ->
  exists w1,
    add_guest_to_context func self args kwargs w
    = attach func self args kwargs (Recordset [i] false) w1
    /\ (i ∈ row_locked w -> mail_guest w1 = mail_guest w)
    /\ (i ∉ row_locked w ->
        mail_guest w1
        = <[i := GuestRow (name g) (access_token g) (Some z) (channel_ids g)]>
            (mail_guest w)).
Proof.
  intros Hr Htok Hsplit Hint Hg Hb Hne Hascii Htz Hz Hin Hzne.
  rewrite (wrapper_resolve _ _ _ _ _ Hr).
  rewrite (guest_of_token_valid _ _ _ _ _ _ _
             Htok Hsplit Hint Hg Hb Hne Hascii).
  eexists. split; [reflexivity|].
  unfold tz_world, _get_timezone_from_request. rewrite Htz. simpl.
  rewrite Hz, bool_decide_eq_true_2 by done.
  destruct z as [|c t]; [done|]. split; intros Hl.
  - by rewrite bool_decide_eq_true_2.
  - rewrite bool_decide_eq_false_2 by done. simpl.
    apply map_eq. intros j. destruct (decide (j = i)) as [->|Hj].
    + by rewrite lookup_alter_eq, lookup_insert_eq, Hg.
    + by rewrite lookup_alter_ne, lookup_insert_ne.
Qed.

Lemma tz_world_frame (i : Z) (g : guest_row) (w : world) :
  mail_guest w !! i = Some g ->
  cookies (tz_world i g w) = cookies w
  /\ bus (tz_world i g w) = bus w
  /\ row_locked (tz_world i g w) = row_locked w
  /\ forall j, row_kept (mail_guest w !! j)
                        (mail_guest (tz_world i g w) !! j).
Proof.
  intros Hg. unfold tz_world.
  destruct (field_set (timezone g)) eqn:Hf;
    [repeat split; by left|].
  unfold _get_timezone_from_request.
  destruct (cookies w !! "tz") as [z|]; [|repeat split; by left].
  destruct (bool_decide (z ∈ all_timezones)) eqn:Hz;
    [|repeat split; by left].
  apply bool_decide_eq_true_1 in Hz.
  destruct z as [|c t]; [repeat split; by left|].
  destruct (bool_decide (i ∈ row_locked w)); [repeat split; by left|].
  repeat split. intros j. simpl.
  destruct (decide (j = i)) as [->|Hj].
  - right. exists g, (c :: t). by rewrite lookup_alter_eq, Hg.
  - left. by rewrite lookup_alter_ne.
Qed.

(** X5: resolution sends nothing on the bus and reads the cookies only; in the
    table of guests it changes no name, no access token and no channel, and
    writes at most a known time zone on a guest that had none. *)
Theorem resolution_frame self args kwargs (w : world) :
  let w' := (add_guest_to_context probe self args kwargs w).2 in
  cookies w' = cookies w
  /\ bus w' = bus w
  /\ row_locked w' = row_locked w
  /\ forall j, row_kept (mail_guest w !! j) (mail_guest w' !! j).
Proof.
  assert (Hsame : forall w0 : world,
            cookies w0 = cookies w -> bus w0 = bus w ->
            row_locked w0 = row_locked w -> mail_guest w0 = mail_guest w ->
            cookies w0 = cookies w /\ bus w0 = bus w
            /\ row_locked w0 = row_locked w
            /\ forall j, row_kept (mail_guest w !! j) (mail_guest w0 !! j)).
  { intros w0 ? ? ? Hm. repeat split; try done. intros j. left.
    by rewrite Hm. }
  destruct (resolved w) eqn:Hr; simpl.
  { rewrite (wrapper_short _ _ _ _ _ Hr). by apply Hsame. }
  rewrite (wrapper_resolve _ _ _ _ _ Hr), guest_of_token_run.
  destruct (select_token _ w) as [| | |tok| | |]; try by apply Hsame.
  destruct (split _cookie_separator tok) as [|a [|b [|c l]]];
    try by apply Hsame.
  destruct (int_of_str unicode_decimal int_max_str_digits a) as [i|];
    [|by apply Hsame].
  simpl. destruct (mail_guest w !! i) as [g|] eqn:Hg; [|by apply Hsame].
  destruct (access_token g) as [[|c t]|]; try by apply Hsame.
  destruct (consteq (c :: t) b) as [[]|]; try by apply Hsame.
  simpl. apply (tz_world_frame i g (count_lookup w) Hg).
Qed.

(** *** Repeated resolution of a rejected token *)

Lemma select_token_cookie (w : world) (tok : list N) :
  cookies w !! _cookie_name = Some tok -> tok <> [] ->
  select_token VNone w = VStr tok.
Proof.
  intros Hc Hne. unfold select_token, py_or. simpl. rewrite Hc. simpl.
  by destruct tok.
Qed.

Lemma unresolved_after_anonymous (w : world) :
  resolved (set_context (insert "guest" (VGuest no_guest)) w) = false.
Proof.
  unfold resolved, _get_guest_from_context. simpl.
  by rewrite lookup_insert_eq.
Qed.

(** X6: the empty guest is not remembered: when the cookie carries a rejected
    token, each of [n] nested decorated calls looks the guest up again. *)
Theorem anonymous_not_cached (n : nat) self args kwargs (w : world)
    (tok a b : list N) (i : Z) :
  resolved w = false ->
  kwargs !! "guest_token" = None ->
  cookies w !! _cookie_name = Some tok ->
  split _cookie_separator tok = [a; b] ->
  int_of_str unicode_decimal int_max_str_digits a = Some i ->
  rejected w i b ->
  (nested n probe self args kwargs w).1 = Ok tt
  /\ db_lookups (nested n probe self args kwargs w).2
     = (n + db_lookups w)%nat.
Proof.
  intros Hr Hk Hc Hsplit Hint Hrej.
  assert (Hne : tok <> []) by (intros ->; discriminate Hsplit).
  revert self kwargs w Hr Hk Hc Hrej.
  induction n as [|n IH]; intros self kwargs w Hr Hk Hc Hrej; [done|].
  change (nested (S n) probe) with (add_guest_to_context (nested n probe)).
  assert (Htok : select_token (default VNone (kwargs !! "guest_token")) w
                 = VStr tok)
    by (rewrite Hk; by apply select_token_cookie).
  rewrite (wrapper_resolve _ _ _ _ _ Hr).
  rewrite (guest_of_token_rejected _ _ _ _ _ _ Htok Hsplit Hint Hrej).
  destruct (IH (insert "guest" (VGuest no_guest) <$> self)
               (delete "guest_token" kwargs)
               (set_context (insert "guest" (VGuest no_guest))
                  (count_lookup w))) as [H1 H2]; try done.
  - apply unresolved_after_anonymous.
  - apply lookup_delete_eq.
  - split; [exact H1|]. rewrite H2. simpl. lia.
Qed.

(** *** Splitting and stripping *)

Lemma split_not_nil (sep : N) (s : list N) : split sep s <> [].
Proof. destruct s as [|c s]; simpl; [done|]. by repeat case_match. Qed.

(** Joining the parts gives the text back. *)
Lemma join_split (sep : N) (s : list N) : join sep (split sep s) = s.
Proof.
  induction s as [|c s IH]; [done|]. simpl.
  destruct (N.eqb_spec c sep) as [->|Hne].
  - pose proof (split_not_nil sep s).
    destruct (split sep s) as [|p ps] eqn:E; [done|].
    simpl in *. by rewrite IH.
  - destruct (split sep s) as [|p ps] eqn:E; [by destruct (split_not_nil sep s)|].
    destruct ps; simpl in *; by rewrite <- IH.
Qed.

(** No part holds the separator, and there is one part more than there are
    separators. *)
Lemma split_parts (sep : N) (s : list N) :
  Forall (fun p => sep ∉ p) (split sep s)
  /\ length (split sep s) = S (length (filter (fun c => c = sep) s)).
Proof.
  induction s as [|c s [IH1 IH2]]; simpl.
  { split; [|done]. repeat constructor. by intros H%elem_of_nil. }
  rewrite filter_cons.
  destruct (N.eqb_spec c sep) as [->|Hne].
  - rewrite decide_True by done. simpl. split; [|by rewrite IH2].
    constructor; [by intros H%elem_of_nil | done].
  - rewrite decide_False by done.
    destruct (split sep s) as [|p ps] eqn:E; [by destruct (split_not_nil sep s)|].
    simpl in *. split; [|done].
    apply Forall_cons in IH1 as [Hp Hps]. constructor; [|done].
    intros [->|Hin]%elem_of_cons; done.
Qed.

(** The token [id|secret] splits back into its two parts when neither holds
    the separator. *)
Lemma split_token_of_parts (a b : list N) :
  _cookie_separator ∉ a -> _cookie_separator ∉ b ->
  split _cookie_separator (a ++ _cookie_separator :: b) = [a; b].
Proof.
  intros Ha Hb.
  assert (Hb' : split _cookie_separator b = [b]).
  { clear Ha. induction b as [|c b IH]; [done|]. simpl.
    apply not_elem_of_cons in Hb as [Hc Hb].
    destruct (N.eqb_spec c _cookie_separator) as [->|_]; [done|].
    by rewrite IH. }
  induction a as [|c a IH]; simpl.
  - by rewrite Hb'.
  - apply not_elem_of_cons in Ha as [Hc Ha].
    destruct (N.eqb_spec c _cookie_separator) as [->|_]; [done|].
    by rewrite IH.
Qed.

Lemma lstrip_spec (s : list N) :
  exists l, s = l ++ lstrip s
            /\ Forall (fun c => isspace c = true) l
            /\ forall c, head (lstrip s) = Some c -> isspace c = false.
Proof.
  induction s as [|c s (l & Hs & Hl & Hh)]; simpl.
  { exists []. repeat split; [constructor | done]. }
  destruct (isspace c) eqn:Hc.
  - exists (c :: l). simpl. rewrite <- Hs. repeat split; [by constructor|done].
  - exists []. repeat split; [constructor|]. intros c' [= <-]. done.
Qed.

Lemma lstrip_app_keep (u v : list N) (x : N) :
  isspace x = false -> lstrip (u ++ x :: v) = lstrip u ++ x :: v.
Proof.
  intros Hx. induction u as [|c u IH]; simpl; [by rewrite Hx|].
  by destruct (isspace c).
Qed.

(** What [strip] removes is white space, at both ends, and what it leaves
    neither starts nor ends with white space. *)
Lemma strip_spec (s : list N) :
  exists l r,
    s = l ++ strip s ++ r
    /\ Forall (fun c => isspace c = true) l
    /\ Forall (fun c => isspace c = true) r
    /\ (forall c, head (strip s) = Some c -> isspace c = false)
    /\ (forall c, last (strip s) = Some c -> isspace c = false).
Proof.
  unfold strip, rstrip.
  destruct (lstrip_spec s) as (l & Hs & Hl & Hh).
  destruct (lstrip_spec (reverse (lstrip s))) as (r & Hr & Hrs & Hrh).
  exists l, (reverse r). repeat split.
  - rewrite Hs at 1. f_equal.
    rewrite <- reverse_app, <- Hr. by rewrite reverse_involutive.
  - done.
  - apply Forall_forall. intros c Hc. rewrite elem_of_reverse in Hc.
    rewrite Forall_forall in Hrs. by apply Hrs.
  - destruct (lstrip s) as [|x t] eqn:E; [done|].
    assert (Hx : isspace x = false) by (by apply Hh).
    rewrite reverse_cons, (lstrip_app_keep _ [] _ Hx), reverse_app. simpl.
    by intros c [= <-].
  - intros c Hc.
    destruct (lstrip (reverse (lstrip s))) as [|y t] eqn:E; [done|].
    rewrite reverse_cons, last_snoc in Hc. injection Hc as <-.
    by apply Hrh.
Qed.

(** X7: a token [id|secret] whose secret is the access token of guest [id]
    resolves to that guest after one look-up; the guest is put in the
    context of the request and in that of [self] without the elevated
    rights of the look-up. *)
Theorem valid_token_resolves {R} (func : handler R) self args kwargs
    (w : world) (tok a b : list N) (i : Z) (g : guest_row) :
  resolved w = false ->
  select_token (default VNone (kwargs !! "guest_token")) w = VStr tok ->
  split _cookie_separator tok = [a; b] ->
  int_of_str unicode_decimal int_max_str_digits a = Some i ->
  mail_guest w !! i = Some g ->
  access_token g = Some b -> b <> [] -> is_ascii b = true ->
  exists w1,
    add_guest_to_context func self args kwargs w
    = func (insert "guest" (VGuest (Recordset [i] false)) <$> self) args
           (delete "guest_token" kwargs) w1
    /\ context w1 = <["guest" := VGuest (Recordset [i] false)]> (context w)
    /\ db_lookups w1 = S (db_lookups w)
    /\ resolved w1 = true.
Proof.
  intros Hr Htok Hsplit Hint Hg Hb Hne Hascii.
  rewrite (wrapper_resolve _ _ _ _ _ Hr).
  rewrite (guest_of_token_valid _ _ _ _ _ _ _
             Htok Hsplit Hint Hg Hb Hne Hascii).
  eexists. split; [reflexivity|]. simpl.
  rewrite context_tz_world, db_lookups_tz_world. repeat split.
  apply resolved_spec. eexists. simpl. split; [apply lookup_insert_eq|done].
Qed.

(** *** More on the name *)

(** X8: [_update_name] is for one guest: on any other record set it raises
    before it looks at the name, and changes nothing. *)
Theorem update_name_not_singleton (w : world) (self : recordset)
    (s : list N) :
  length (ids self) <> 1%nat ->
  _update_name self s w = (Raise ValueError, w).
Proof.
  intros Hn. unfold _update_name, ensure_one, mbind, M_bind, raise.
  destruct (ids self) as [|i [|j l]]; simpl in *; done.
Qed.

(** X9: the name a successful [_update_name] stores is the argument less the
    white space around it: it has between 1 and 512 characters and neither
    starts nor ends with white space. *)
Theorem update_name_stored_trimmed (w : world) (i : Z) (b : bool)
    (g : guest_row) (s : list N) :
  mail_guest w !! i = Some g ->
  (_update_name (Recordset [i] b) s w).1 = Ok tt ->
  exists n l r,
    name <$> (mail_guest (_update_name (Recordset [i] b) s w).2 !! i) = Some n
    /\ s = l ++ n ++ r
    /\ Forall (fun c => isspace c = true) l
    /\ Forall (fun c => isspace c = true) r
    /\ (1 <= length n <= 512)%nat
    /\ (forall c, head n = Some c -> isspace c = false)
    /\ (forall c, last n = Some c -> isspace c = false).
Proof.
  intros Hg. rewrite (update_name_run _ _ _ _ _ Hg).
  destruct (length (strip s) <? 1)%nat eqn:E1; [done|].
  destruct (512 <? length (strip s))%nat eqn:E2; [done|].
  intros _. apply Nat.ltb_ge in E1, E2.
  destruct (strip_spec s) as (l & r & Hs & Hl & Hr & Hh & Hla).
  exists (strip s), l, r. simpl. rewrite lookup_insert_eq. simpl.
  repeat split; try done; lia.
Qed.

(** X10: a successful [_update_name] changes the name of its guest and nothing
    else in the table: the other fields of the row and the other rows are
    kept, and so are the cookies and the context of the request. *)
Theorem update_name_frame (w : world) (i : Z) (b : bool) (g : guest_row)
    (s : list N) :
  mail_guest w !! i = Some g ->
  (_update_name (Recordset [i] b) s w).1 = Ok tt ->
  let w' := (_update_name (Recordset [i] b) s w).2 in
  mail_guest w'
  = <[i := GuestRow (strip s) (access_token g) (timezone g) (channel_ids g)]>
      (mail_guest w)
  /\ (forall j, j <> i -> mail_guest w' !! j = mail_guest w !! j)
  /\ cookies w' = cookies w
  /\ context w' = context w
  /\ db_lookups w' = db_lookups w.
Proof.
  intros Hg. rewrite (update_name_run _ _ _ _ _ Hg).
  destruct (length (strip s) <? 1)%nat; [done|].
  destruct (512 <? length (strip s))%nat; [done|].
  intros _. simpl. repeat split. intros j Hj. by rewrite lookup_insert_ne.
Qed.

(** *** More on the time zone *)

(** X11: [_update_timezone] on one guest never waits and never raises: it
    writes the time zone when the row is free, leaving the other fields
    and rows as they are, and writes nothing when the row is locked or
    missing. *)
Theorem update_timezone_effect (w : world) (i : Z) (b : bool) (z : list N) :
  let r := _update_timezone (Recordset [i] b) z w in
  r.1 = Ok tt
  /\ (i ∈ row_locked w -> r.2 = w)
  /\ (mail_guest w !! i = None -> r.2 = w)
  /\ (forall g, i ∉ row_locked w -> mail_guest w !! i = Some g ->
        mail_guest r.2
        = <[i := GuestRow (name g) (access_token g) (Some z) (channel_ids g)]>
            (mail_guest w))
  /\ bus r.2 = bus w /\ context r.2 = context w.
Proof.
  unfold _update_timezone, modify. simpl. split; [done|].
  split; [|split; [|split]].
  - intros Hl. by rewrite bool_decide_eq_true_2.
  - intros Hn. case_bool_decide; [done|].
    destruct w; unfold set_mail_guest; simpl in *. f_equal.
    apply map_eq. intros j. destruct (decide (j = i)) as [->|Hj].
    + by rewrite lookup_alter_eq, Hn.
    + by rewrite lookup_alter_ne.
  - intros g Hl Hg. rewrite bool_decide_eq_false_2 by done. simpl.
    apply map_eq. intros j. destruct (decide (j = i)) as [->|Hj].
    + by rewrite lookup_alter_eq, lookup_insert_eq, Hg.
    + by rewrite lookup_alter_ne, lookup_insert_ne.
  - by case_bool_decide.
Qed.

(** X12: the time zone read from the request is a known one or none. *)
Theorem timezone_from_request_known (w : world) (z : list N) :
  _get_timezone_from_request w = Some z ->
  z ∈ all_timezones /\ cookies w !! "tz" = Some z.
Proof.
  unfold _get_timezone_from_request.
  destruct (cookies w !! "tz") as [t|]; [|done].
  case_bool_decide; [|done]. by intros [= ->].
Qed.

(** *** More on presence *)

Lemma status_of_row_values (w : world) (r : presence_row) :
  status_of_row w r ∈ ["offline"; "away"; "online"].
Proof.
  unfold status_of_row.
  destruct (older_than w (last_poll r) DISCONNECTION_TIMER);
    [|destruct (older_than w (last_presence r) AWAY_TIMER)];
    repeat constructor.
Qed.

Lemma assoc_last_query_In (w : world) (sel : list Z) (i : Z) (st : string) :
  assoc_last i (presence_query w sel) = Some st ->
  exists r, r ∈ bus_presence w /\ guest_id r = i /\ st = status_of_row w r.
Proof.
  unfold presence_query.
  induction (bus_presence w) as [|a rows IH]; [done|].
  rewrite filter_cons. destruct (decide (guest_id a ∈ sel)); simpl.
  - destruct (assoc_last i _) as [v|] eqn:E.
    + intros [= <-]. destruct (IH eq_refl) as (r & Hr & Hg & Hs).
      exists r. split; [by right | done].
    + destruct (decide (i = guest_id a)); [|done].
      intros [= <-]. exists a. split; [by left | done].
  - intros H. destruct (IH H) as (r & Hr & Hg & Hs).
    exists r. split; [by right | done].
Qed.

(** X13: [_compute_im_status] gives each guest of a record set that is not empty
    one of the three statuses, reads the data base only, and never
    raises. *)
Theorem im_status_values (w : world) (self : recordset) :
  ids self <> [] ->
  exists res : list (Z * string),
    _compute_im_status self w = (Ok res, w)
    /\ res.*1 = ids self
    /\ Forall (fun p => p.2 ∈ ["offline"; "away"; "online"]) res.
Proof.
  intros Hne. rewrite (compute_im_status_run _ _ Hne).
  eexists. split; [reflexivity|]. split.
  { rewrite <- list_fmap_compose. apply list_fmap_id. }
  apply Forall_fmap, Forall_forall. intros i _. simpl.
  destruct (assoc_last i _) as [st|] eqn:E; simpl;
    [|repeat constructor].
  apply assoc_last_query_In in E as (r & _ & _ & ->).
  apply status_of_row_values.
Qed.

Lemma assoc_last_query_sel (w : world) (sel : list Z) (i : Z) :
  i ∈ sel ->
  assoc_last i (presence_query w sel) = assoc_last i (presence_query w [i]).
Proof.
  intros Hi. unfold presence_query.
  induction (bus_presence w) as [|a rows IH]; [done|].
  rewrite !filter_cons. destruct (decide (guest_id a = i)) as [Ha|Ha].
  - rewrite (decide_True (P := guest_id a ∈ sel)) by (by rewrite Ha).
    rewrite (decide_True (P := guest_id a ∈ [i]))
      by (rewrite Ha; apply list_elem_of_singleton; done).
    simpl. by rewrite IH.
  - rewrite (decide_False (P := guest_id a ∈ [i]))
      by (intros Hin%list_elem_of_singleton; done).
    destruct (decide (guest_id a ∈ sel)); [|done]. simpl. rewrite IH.
    destruct (decide (i = guest_id a)); [congruence|].
    by case_match.
Qed.

Lemma im_status_run (i : Z) (w : world) :
  im_status i w
  = (Ok (default "offline" (assoc_last i (presence_query w [i]))), w).
Proof.
  unfold im_status, mbind, M_bind.
  by rewrite compute_im_status_run.
Qed.

(** X14: the status of a guest does not depend on the other guests of the
    record set the field is computed for. *)
Theorem im_status_batch_independent (w : world) (self : recordset) (i : Z)
    (res : list (Z * string)) (st : string) :
  _compute_im_status self w = (Ok res, w) ->
  (i, st) ∈ res ->
  im_status i w = (Ok st, w).
Proof.
  intros Hrun Hin.
  assert (Hne : ids self <> []).
  { intros E. unfold _compute_im_status in Hrun. by rewrite E in Hrun. }
  rewrite (compute_im_status_run _ _ Hne) in Hrun.
  injection Hrun as <-. apply list_elem_of_fmap in Hin as (j & Hj & Hjin).
  injection Hj as <- ->. rewrite im_status_run.
  by rewrite (assoc_last_query_sel _ _ _ Hjin).
Qed.

(** X15: a presence row without a last poll never makes its guest offline: the
    guest is away when its last presence is older than the away timer and
    online otherwise, also when it has no last presence. *)
Theorem im_status_null_poll (w : world) (self : recordset)
    (r : presence_row) (res : list (Z * string)) (st : string) :
  NoDup (guest_id <$> bus_presence w) ->
  r ∈ bus_presence w -> guest_id r ∈ ids self ->
  last_poll r = None ->
  _compute_im_status self w = (Ok res, w) ->
  (guest_id r, st) ∈ res ->
  st <> "offline"
  /\ (last_presence r = None -> st = "online")
  /\ (forall q, last_presence r = Some q ->
        st = if seconds AWAY_TIMER <? now w - q then "away" else "online").
Proof.
  intros Hnd Hr Hsel Hp Hrun Hin.
  assert (Hne : ids self <> []).
  { intros E. unfold _compute_im_status in Hrun. by rewrite E in Hrun. }
  rewrite (compute_im_status_run _ _ Hne) in Hrun.
  injection Hrun as <-. apply list_elem_of_fmap in Hin as (j & Hj & Hjin).
  injection Hj as <- ->.
  rewrite (presence_query_row _ _ _ Hnd Hr Hsel). simpl.
  unfold status_of_row, older_than. rewrite Hp.
  repeat split.
  - by repeat case_match.
  - by intros ->.
  - by intros q ->.
Qed.

(** *** Formatting *)

Lemma format_one_run (fields : list string) (w : world) (i : Z)
    (g : guest_row) :
  mail_guest w !! i = Some g ->
  format_one fields i w = (Ok (entry_of fields w i g), w).
Proof.
  intros Hg. unfold format_one, entry_of, mbind, M_bind.
  destruct (bool_decide ("id" ∈ fields));
    destruct (bool_decide ("name" ∈ fields));
    rewrite ?(read_field_single _ _ _ _ _ Hg);
    destruct (bool_decide ("im_status" ∈ fields));
    unfold mret, M_ret; cbv beta iota;
    rewrite ?im_status_run; reflexivity.
Qed.

Lemma format_loop_run (fields : list string) (w : world) (l : list Z)
    (acc : gmap Z (list (string * pyval))) :
  (forall i, i ∈ l -> is_Some (mail_guest w !! i)) ->
  exists m,
    format_loop fields l acc w = (Ok m, w)
    /\ forall i,
         m !! i = match mail_guest w !! i with
                  | Some g => if bool_decide (i ∈ l)
                              then Some (entry_of fields w i g)
                              else acc !! i
                  | None => acc !! i
                  end.
Proof.
  revert acc. induction l as [|j l IH]; intros acc Hrows.
  - exists acc. split; [done|]. intros i.
    rewrite bool_decide_eq_false_2 by (by intros H%elem_of_nil).
    by destruct (mail_guest w !! i).
  - destruct (Hrows j) as [g Hg]; [by left|].
    simpl. unfold mbind, M_bind. rewrite (format_one_run _ _ _ _ Hg).
    destruct (IH (<[j := entry_of fields w j g]> acc)) as (m & Hrun & Hm).
    { intros i Hi. apply Hrows. by right. }
    exists m. split; [done|]. intros i. rewrite Hm.
    destruct (mail_guest w !! i) as [gi|] eqn:Hgi.
    + destruct (decide (i ∈ l)) as [Hil|Hil].
      * rewrite !bool_decide_eq_true_2; [done | by right | done].
      * rewrite (bool_decide_eq_false_2 (i ∈ l)) by done.
        destruct (decide (i = j)) as [->|Hij].
        -- rewrite lookup_insert_eq, bool_decide_eq_true_2 by (by left).
           congruence.
        -- rewrite lookup_insert_ne by done.
           rewrite bool_decide_eq_false_2; [done|].
           by intros [?|?]%elem_of_cons.
    + destruct (decide (i = j)) as [->|Hij]; [congruence|].
      by rewrite lookup_insert_ne.
Qed.

(** X16: for guests that exist, [_guest_format] gives a dictionary with one
    entry per guest; an entry holds, in this order, the id, the name and
    the status of the guest, each when its name is among the fields asked
    for, and nothing else.  Nothing is written. *)
Theorem guest_format_entries (w : world) (self : recordset)
    (fields : list string) :
  (forall i, i ∈ ids self -> is_Some (mail_guest w !! i)) ->
  exists m,
    _guest_format self fields w = (Ok m, w)
    /\ (forall i, i ∉ ids self -> m !! i = None)
    /\ forall i g, i ∈ ids self -> mail_guest w !! i = Some g ->
         m !! i = Some (entry_of (format_fields fields) w i g)
         /\ (entry_of (format_fields fields) w i g).*1
            = filter (fun k => k ∈ format_fields fields)
                     ["id"; "name"; "im_status"].
Proof.
  intros Hrows. unfold _guest_format. fold (format_fields fields).
  destruct (format_loop_run (format_fields fields) w (ids self) ∅ Hrows)
    as (m & Hrun & Hm).
  exists m. split; [done|]. split.
  - intros i Hi. rewrite Hm, lookup_empty.
    rewrite bool_decide_eq_false_2 by done.
    by destruct (mail_guest w !! i).
  - intros i g Hi Hg. split.
    + by rewrite Hm, Hg, bool_decide_eq_true_2.
    + unfold entry_of. rewrite !filter_cons, filter_nil.
      repeat case_bool_decide; repeat case_decide; done.
Qed.

(** X17: with the default fields every entry has the three keys. *)
Theorem guest_format_default (w : world) (i : Z) (b : bool) (g : guest_row) :
  mail_guest w !! i = Some g ->
  exists st,
    im_status i w = (Ok st, w)
    /\ _guest_format (Recordset [i] b) [] w
       = (Ok {[ i := [("id", VInt i); ("name", VStr (name g));
                      ("im_status", VStr (py st))] ]}, w).
Proof.
  intros Hg. eexists. split; [apply im_status_run|].
  unfold _guest_format. simpl. unfold mbind, M_bind.
  rewrite (format_one_run _ _ _ _ Hg). reflexivity.
Qed.

(** *** The signature *)


(** *** Decoding *)

(** X19: a token splits into the two parts [a] and [b] exactly when it is [a],
    the separator and [b], with no separator inside [a] or [b]. *)
Theorem token_two_parts (tok a b : list N) :
  split _cookie_separator tok = [a; b]
  <-> (tok = a ++ (_cookie_separator :: b)
       /\ (_cookie_separator ∉ a) /\ (_cookie_separator ∉ b)).
Proof.
  split.
  - intros Hs. pose proof (join_split _cookie_separator tok) as Hj.
    destruct (split_parts _cookie_separator tok) as [Hf _].
    rewrite Hs in Hj, Hf. simpl in Hj.
    apply Forall_cons in Hf as [Ha Hf]. apply Forall_cons in Hf as [Hb _].
    done.
  - intros (-> & Ha & Hb). by apply split_token_of_parts.
Qed.

(** X20: a candidate token that is not a string (a number sent as
    [guest_token], say) makes the wrapper raise [AttributeError] before
    anything is looked up. *)
Theorem non_string_token_raises {R} (func : handler R) self args kwargs
    (w : world) :
  resolved w = false ->
  (forall s,
     ~ (select_token (default VNone (kwargs !! "guest_token")) w = VStr s)) ->
  add_guest_to_context func self args kwargs w = (Raise AttributeError, w).
Proof.
  intros Hr Hns. rewrite (wrapper_resolve _ _ _ _ _ Hr), guest_of_token_run.
  destruct (select_token _ w) as [| | |s| | |]; try done.
  by destruct (Hns s).
Qed.

(** *** Invariants of what is attached *)

(** X21: a resolution that returns leaves a guest record set in the context of
    the request: the empty one or one existing guest, in both cases
    without elevated rights. *)
Theorem attached_guest_unprivileged self args kwargs (w w' : world) :
  resolved w = false ->
  add_guest_to_context probe self args kwargs w = (Ok tt, w') ->
  exists g,
    context w' !! "guest" = Some (VGuest g)
    /\ su g = false
    /\ (ids g = [] \/ exists i, ids g = [i] /\ is_Some (mail_guest w !! i)).
Proof.
  intros Hr Hrun. rewrite (wrapper_resolve _ _ _ _ _ Hr) in Hrun.
  rewrite guest_of_token_run in Hrun.
  assert (Hno : forall w0,
            (Ok tt, set_context (insert "guest" (VGuest no_guest)) w0)
            = (Ok tt, w') ->
            exists g, context w' !! "guest" = Some (VGuest g)
                      /\ su g = false
                      /\ (ids g = [] \/
                          exists i, ids g = [i]
                                    /\ is_Some (mail_guest w !! i))).
  { intros w0 [= <-]. exists no_guest. simpl. rewrite lookup_insert_eq.
    split; [done|]. split; [done|]. by left. }
  destruct (select_token _ w) as [| | |tok| | |]; try done.
  destruct (split _cookie_separator tok) as [|a [|b [|c l]]];
    try by eapply Hno.
  destruct (int_of_str unicode_decimal int_max_str_digits a) as [i|];
    [|done].
  simpl in Hrun.
  destruct (mail_guest w !! i) as [row|] eqn:Hrow; [|by eapply Hno].
  destruct (access_token row) as [[|c t]|]; try by eapply Hno.
  destruct (consteq (c :: t) b) as [[]|]; [|by eapply Hno|done].
  unfold probe, mret, M_ret in Hrun. injection Hrun as <-.
  exists (Recordset [i] false). simpl. rewrite lookup_insert_eq.
  split; [done|]. split; [done|]. right. exists i. by rewrite Hrow.
Qed.

(** *** More on the bootstrap *)

(** X22: [_init_messaging] only reads, and it is for one guest: on any other
    record set it raises. *)
Theorem init_messaging_read_only (env : collaborators) (w : world)
    (self : recordset) :
  (_init_messaging env self w).2 = w
  /\ (length (ids self) <> 1%nat ->
      (_init_messaging env self w).1 = Raise ValueError).
Proof.
  destruct self as [[|i [|j l]] b]; try (by split).
  unfold _init_messaging, mbind, M_bind. rewrite ensure_one_single.
  destruct (mail_guest w !! i) as [g|] eqn:Hg.
  - rewrite !(read_field_single _ _ _ _ _ Hg). by split.
  - rewrite (read_field_missing _ _ _ _ Hg). by split.
Qed.

Lemma lstrip_id (s : list N) :
  (forall c, head s = Some c -> isspace c = false) -> lstrip s = s.
Proof.
  destruct s as [|c s]; [done|]. intros H. simpl. by rewrite (H c).
Qed.

Lemma strip_idempotent (s : list N) : strip (strip s) = strip s.
Proof.
  destruct (strip_spec s) as (_ & _ & _ & _ & _ & Hh & Hl).
  unfold strip at 1. rewrite (lstrip_id _ Hh). unfold rstrip.
  rewrite lstrip_id; [apply reverse_involutive|].
  intros c Hc. apply Hl. rewrite <- (reverse_involutive (strip s)).
  destruct (reverse (strip s)) as [|x t]; [done|].
  rewrite reverse_cons, last_snoc. by injection Hc as ->.
Qed.

(** X23: [_update_name] looks at its argument through [strip] only: a name and
    the same name already stripped have the same effect, on every record
    set and in every state. *)
Theorem update_name_strips_first (w : world) (self : recordset)
    (s : list N) :
  _update_name self (strip s) w = _update_name self s w.
Proof.
  unfold _update_name. by rewrite strip_idempotent.
Qed.

(** *** Tokens that cannot raise *)

Lemma is_ascii_app (a b : list N) :
  is_ascii (a ++ b) = is_ascii a && is_ascii b.
Proof. apply forallb_app. Qed.

(** X24: resolution returns, with the empty guest or with a guest, for
    every ASCII token that does not split in two parts or whose first part
    is an integer literal, as long as the access tokens stored are ASCII:
    the non-integer id is the only way such a token makes it raise. *)
Theorem ascii_token_never_raises self args kwargs (w : world)
    (tok : list N) :
  resolved w = false ->
  select_token (default VNone (kwargs !! "guest_token")) w = VStr tok ->
  is_ascii tok = true ->
  (forall a b, split _cookie_separator tok = [a; b] ->
     is_Some (int_of_str unicode_decimal int_max_str_digits a)) ->
  (forall i g t, mail_guest w !! i = Some g -> access_token g = Some t ->
     is_ascii t = true) ->
  (add_guest_to_context probe self args kwargs w).1 = Ok tt.
Proof.
  intros Hr Htok Hascii Hint Hstored.
  rewrite (wrapper_resolve _ _ _ _ _ Hr), guest_of_token_run, Htok.
  destruct (split _cookie_separator tok) as [|a [|b [|c l]]] eqn:Hs;
    try done.
  destruct (Hint a b eq_refl) as [i Hi]. rewrite Hi. simpl.
  destruct (mail_guest w !! i) as [g|] eqn:Hg; [|done].
  destruct (access_token g) as [[|c t]|] eqn:Ht; try done.
  pose proof (join_split _cookie_separator tok) as Hj.
  rewrite Hs in Hj. simpl in Hj. subst tok.
  rewrite is_ascii_app in Hascii. apply andb_prop in Hascii as [_ Hb].
  simpl in Hb. unfold consteq. rewrite (Hstored i g (c :: t) Hg Ht), Hb. simpl.
  by destruct (bool_decide (c :: t = b)).
Qed.

(** *** Presence as time passes *)

Lemma older_than_mono (w : world) (t : Z) (x : option Z) (n : Z) :
  now w <= t -> older_than w x n = true -> older_than (at_time t w) x n = true.
Proof.
  unfold older_than. destruct x as [x|]; [|done]. simpl.
  rewrite !Z.ltb_lt. lia.
Qed.

Lemma status_of_row_mono (w : world) (t : Z) (r : presence_row) :
  now w <= t ->
  (status_rank (status_of_row w r)
   <= status_rank (status_of_row (at_time t w) r))%nat.
Proof.
  intros Ht. unfold status_of_row.
  destruct (older_than w (last_poll r) DISCONNECTION_TIMER) eqn:E1.
  { by rewrite (older_than_mono _ _ _ _ Ht E1). }
  destruct (older_than w (last_presence r) AWAY_TIMER) eqn:E2.
  { rewrite (older_than_mono _ _ _ _ Ht E2).
    destruct (older_than (at_time t w) _ _); vm_compute; lia. }
  repeat case_match; vm_compute; lia.
Qed.

Lemma assoc_last_two_times (w : world) (t : Z) (sel : list Z) (i : Z) :
  (assoc_last i (presence_query w sel) = None
   /\ assoc_last i (presence_query (at_time t w) sel) = None)
  \/ exists r,
       assoc_last i (presence_query w sel) = Some (status_of_row w r)
       /\ assoc_last i (presence_query (at_time t w) sel)
          = Some (status_of_row (at_time t w) r).
Proof.
  unfold presence_query. simpl.
  induction (bus_presence w) as [|a rows IH]; [by left|].
  rewrite filter_cons. destruct (decide (guest_id a ∈ sel)); [|done].
  simpl. destruct IH as [[-> ->] | (r & -> & ->)].
  - destruct (decide (i = guest_id a)); [right; by exists a | by left].
  - right. by exists r.
Qed.

(** X25: with the presence rows as they are, the status of a guest can only
    go from online to away to offline as time passes. *)
Theorem im_status_only_degrades (w : world) (t : Z) (i : Z)
    (s s' : string) :
  now w <= t ->
  im_status i w = (Ok s, w) ->
  im_status i (at_time t w) = (Ok s', at_time t w) ->
  (status_rank s <= status_rank s')%nat.
Proof.
  intros Ht. rewrite !im_status_run. intros [= <-] [= <-].
  destruct (assoc_last_two_times w t [i] i) as [[-> ->] | (r & -> & ->)].
  - done.
  - simpl. by apply status_of_row_mono.
Qed.

(** *** Integer literals *)

Lemma to_ascii_digits (ds : list N) :
  forallb is_digit ds = true -> to_ascii unicode_decimal ds = ds.
Proof.
  induction ds as [|c ds IH]; [done|]. simpl.
  intros [Hc Hds]%andb_prop. unfold is_digit in Hc.
  apply andb_prop in Hc as [_ Hc%N.leb_le].
  rewrite (proj2 (N.ltb_lt c 127)) by lia. by rewrite IH.
Qed.

Lemma scan_digits_digits (ds : list N) (need : bool) (acc : Z) (cnt : N) :
  forallb is_digit ds = true ->
  (ds <> [] \/ need = false) ->
  scan_digits ds need acc cnt
  = Some (decimal_value acc ds, (cnt + N.of_nat (length ds))%N, []).
Proof.
  revert need acc cnt. induction ds as [|c ds IH]; intros need acc cnt Hd Hn.
  - destruct Hn as [Hn | ->]; [done|]. simpl. by rewrite N.add_0_r.
  - simpl in Hd. apply andb_prop in Hd as [Hc Hds].
    simpl. unfold digit_of. unfold is_digit in Hc. rewrite Hc.
    rewrite (IH false _ _ Hds) by (by right). simpl.
    do 3 f_equal. lia.
Qed.

(** X26: a string of ASCII digits that is not empty and not longer than the
    limit of the interpreter is an integer literal: [int] gives the number
    it writes in base ten. *)
Theorem int_of_str_digits (ds : list N) :
  ds <> [] ->
  forallb is_digit ds = true ->
  (int_max_str_digits = 0 \/ N.of_nat (length ds) <= int_max_str_digits)%N ->
  int_of_str unicode_decimal int_max_str_digits ds
  = Some (decimal_value 0 ds).
Proof.
  intros Hne Hd Hlim. unfold int_of_str. rewrite (to_ascii_digits _ Hd).
  destruct ds as [|c ds]; [done|].
  assert (Hc : is_digit c = true).
  { simpl in Hd. by apply andb_prop in Hd as [? _]. }
  assert (Hsp : skip_spaces (c :: ds) = c :: ds).
  { simpl. unfold ascii_space. unfold is_digit in Hc.
    apply andb_prop in Hc as [H1%N.leb_le H2%N.leb_le].
    rewrite (proj2 (N.leb_gt c 13)) by lia.
    rewrite (proj2 (N.eqb_neq c 32)) by lia.
    by rewrite andb_false_r. }
  rewrite Hsp.
  assert (Hsign : match c :: ds with
                  | 45%N :: t' => (true, t')
                  | 43%N :: t' => (false, t')
                  | _ => (false, c :: ds)
                  end = (false, c :: ds)).
  { unfold is_digit in Hc.
    apply andb_prop in Hc as [H1%N.leb_le H2%N.leb_le].
    assert (Hcases : (c = 48 \/ c = 49 \/ c = 50 \/ c = 51 \/ c = 52
                      \/ c = 53 \/ c = 54 \/ c = 55 \/ c = 56 \/ c = 57)%N)
      by lia.
    repeat (destruct Hcases as [->|Hcases]; [reflexivity|]).
    by subst c. }
  rewrite Hsign.
  rewrite (scan_digits_digits _ _ _ _ Hd) by (by left). simpl skip_spaces.
  cbv beta iota. rewrite N.add_0_l.
  destruct Hlim as [-> | Hlim]; [done|].
  rewrite (proj2 (N.ltb_ge _ _) Hlim). by rewrite andb_false_r.
Qed.

End MailGuest.

(** ** The statements at sample data *)

(** C1 at the token [|s3cret], whose first part is empty. *)
Lemma non_numeric_id_raises_witness :
  add_guest_to_context sample_decimal sample_max_digits sample_zones
    probe None [] {[ "guest_token" := VStr (py "|s3cret") ]} w_plain
  = (Raise ValueError, w_plain).
Proof.
  apply (non_numeric_id_raises sample_decimal sample_max_digits sample_zones
           probe None [] _ w_plain (py "|s3cret") [] (py "s3cret"));
    reflexivity.
Defined.

(** C2 as it is written fails: with the cookie [5|wrong] the first call
    leaves the empty guest in the context, and the nested call looks guest
    5 up again. *)
Lemma repeated_lookup_counterexample :
  db_lookups
    (nested sample_decimal sample_max_digits sample_zones 2 probe
       None [] ∅ w_wrong).2 = 2%nat
  /\ ~ (forall n,
          (db_lookups
             (nested sample_decimal sample_max_digits sample_zones n probe
                None [] ∅ w_wrong).2 <= 1)%nat).
Proof.
  assert (H : db_lookups
                (nested sample_decimal sample_max_digits sample_zones 2 probe
                   None [] ∅ w_wrong).2 = 2%nat) by (vm_compute; reflexivity).
  split; [exact H|]. intros Hall. specialize (Hall 2%nat).
  rewrite H in Hall. lia.
Qed.

(** C2 at the cookie [5|s3cret]: one look-up for three nested calls. *)
Lemma resolution_short_circuit_witness :
  exists self' w',
    db_lookups w' = 1%nat
    /\ context w' !! "guest" = Some (VGuest (Recordset [5] false))
    /\ forall n R (func : handler R),
         nested sample_decimal sample_max_digits sample_zones (S n) func
           None [] ∅ w_valid
         = func self' [] (delete "guest_token" ∅) w'.
Proof.
  apply (proj2 (resolution_short_circuit sample_decimal sample_max_digits
                  sample_zones None [] ∅ w_valid)
           (py "5|s3cret") (py "5") (py "s3cret") 5 bob);
    first [reflexivity | done].
Defined.

(** C3 at a request with both an argument and a cookie, and at one with a
    cookie only. *)
Lemma select_token_priority_witness :
  (forall w', select_token (VStr (py "9|arg")) w' = VStr (py "9|arg"))
  /\ select_token VNone w_valid = VStr (py "5|s3cret")
  /\ select_token (VStr []) w_plain = VStr [].
Proof.
  split; [|split].
  - apply (proj1 (select_token_priority (Some (py "9|arg")) w_valid)
             (py "9|arg")); done.
  - apply (proj1 (proj2 (select_token_priority None w_valid)));
      [by left | reflexivity | done].
  - apply (proj2 (proj2 (select_token_priority (Some []) w_plain)));
      [by right | by left].
Defined.

(** C4 at the name of the specification. *)
Lemma update_name_validates_witness :
  (_update_name (Recordset [5] false) (py "  Bob  ") w_plain).1 = Ok tt
  /\ name <$> (mail_guest
                 (_update_name (Recordset [5] false) (py "  Bob  ") w_plain).2
               !! 5)
     = Some (py "Bob").
Proof.
  apply (proj2 (update_name_validates w_plain 5 false bob (py "  Bob  ")
                  eq_refl)).
  vm_compute. lia.
Defined.

(** C5 at a name of blanks. *)
Lemma update_name_error_atomic_witness :
  mail_guest (_update_name (Recordset [5] false) (py "   ") w_plain).2
  = mail_guest w_plain
  /\ bus (_update_name (Recordset [5] false) (py "   ") w_plain).2
     = bus w_plain
  /\ (_update_name (Recordset [5] false) (py "   ") w_plain).2 = w_plain.
Proof.
  apply (update_name_error_atomic w_plain (Recordset [5] false) (py "   ")
           "Guest's name cannot be empty.").
  reflexivity.
Defined.

(** C6 at guest 5, who is in two channels: three notifications. *)
Lemma update_name_notifies_witness :
  exists ns : list notification,
    bus (_update_name (Recordset [5] false) (py " Al ") w_plain).2
    = bus w_plain ++ ns
    /\ length ns = 3%nat
    /\ (fun n => n.1.1) <$> ns
       = [TChannel 7; TChannel 8; TGuest (Recordset [5] false)]
    /\ name <$> (mail_guest
                   (_update_name (Recordset [5] false) (py " Al ") w_plain).2
                 !! 5)
       = Some (py "Al")
    /\ Forall (fun n : notification =>
                 n.1.2 = "mail.record/insert"
                 /\ n.2 = VDict [("Guest", VDict [("id", VInt 5);
                                                  ("name", VStr (py "Al"))])])
              ns.
Proof.
  apply (update_name_notifies w_plain 5 false bob (py " Al ")); reflexivity.
Defined.

(** C7 at guest 6, who polls but has not been present for 15 s. *)
Lemma im_status_classification_witness :
  exists res : list (Z * string),
    _compute_im_status sample_disconnection sample_away
      (Recordset [5; 6; 7; 8] false) w_plain = (Ok res, w_plain)
    /\ res.*1 = [5; 6; 7; 8]
    /\ (6, "away") ∈ res.
Proof.
  destruct (im_status_classification sample_disconnection sample_away
              w_plain (Recordset [5; 6; 7; 8] false) 6)
    as (res & Hrun & Hkeys & Hst).
  - apply list_elem_of_In. simpl. tauto.
  - apply NoDup_ListNoDup. repeat constructor; simpl; intuition lia.
  - exists res. split; [exact Hrun|]. split; [exact Hkeys|].
    assert (Hin : exists st, (6, st) ∈ res).
    { apply (f_equal (fun l => l !! 1%nat)) in Hkeys. simpl in Hkeys.
      rewrite list_lookup_fmap in Hkeys.
      destruct (res !! 1%nat) as [[k st]|] eqn:E; simpl in Hkeys; [|done].
      exists st. apply list_elem_of_lookup. exists 1%nat.
      by inversion Hkeys; subst. }
    destruct Hin as [st Hin].
    destruct (Hst st Hin) as (_ & _ & Haway & _).
    rewrite <- (Haway (PresenceRow 6 (Some 95000000) (Some 85000000))
                  95000000 85000000); try done.
    apply list_elem_of_In. simpl. tauto.
Defined.

(** C8 at guest 5. *)
Lemma init_messaging_payload_witness :
  exists d : list (string * pyval),
    _init_messaging sample_env (Recordset [5] false) w_plain
    = (Ok (VDict d), w_plain)
    /\ item "current_partner" d = Some (VBool false)
    /\ item "currentGuest" d
       = Some (VDict [("id", VInt 5); ("name", VStr (py "Bob"))]).
Proof.
  destruct (init_messaging_payload sample_env w_plain 5 false bob eq_refl)
    as (d & Hrun & _ & Hp & _ & _ & Hg & _).
  exists d. auto.
Defined.

(** C10 at a call with [guest_token] and one more keyword argument. *)
Lemma wrapper_strips_guest_token_witness :
  (exists self' w', forall R (func : handler R),
      add_guest_to_context sample_decimal sample_max_digits sample_zones
        func None [VInt 3]
        {[ "guest_token" := VStr (py "5|s3cret"); "limit" := VInt 30 ]}
        w_plain
      = func self' [VInt 3]
          (delete "guest_token"
             {[ "guest_token" := VStr (py "5|s3cret"); "limit" := VInt 30 ]})
          w')
  \/ (exists e w', forall R (func : handler R),
        add_guest_to_context sample_decimal sample_max_digits sample_zones
          func None [VInt 3]
          {[ "guest_token" := VStr (py "5|s3cret"); "limit" := VInt 30 ]}
          w_plain
        = (Raise e, w')).
Proof.
  exact (proj1 (proj2 (proj2
           (wrapper_strips_guest_token sample_decimal sample_max_digits
              sample_zones None [VInt 3]
              {[ "guest_token" := VStr (py "5|s3cret"); "limit" := VInt 30 ]}
              w_plain)))).
Defined.

(** ** Further statements at sample data *)

Lemma wrong_part_count_anonymous_witness :
  add_guest_to_context sample_decimal sample_max_digits sample_zones
    probe None [] {[ "guest_token" := VStr (py "5|s3cret|x") ]} w_plain
  = attach probe None [] {[ "guest_token" := VStr (py "5|s3cret|x") ]}
      no_guest w_plain.
Proof.
  apply (wrong_part_count_anonymous sample_decimal sample_max_digits
           sample_zones probe None [] _ w_plain (py "5|s3cret|x"));
    [reflexivity | reflexivity | vm_compute; lia].
Defined.

Lemma rejected_w_wrong : rejected w_wrong 5 (py "wrong").
Proof.
  right. right. exists bob, (py "s3cret").
  repeat split; try reflexivity. discriminate.
Defined.

(** X2 at sample data. *)
Lemma rejected_token_anonymous_witness :
  add_guest_to_context sample_decimal sample_max_digits sample_zones
    probe None [] ∅ w_wrong
  = attach probe None [] ∅ no_guest (count_lookup w_wrong).
Proof.
  apply (rejected_token_anonymous sample_decimal sample_max_digits
           sample_zones probe None [] ∅ w_wrong
           (py "5|wrong") (py "5") (py "wrong") 5);
    first [reflexivity | exact rejected_w_wrong].
Defined.

(** X3 at sample data. *)
Lemma resolved_guest_authentic_witness :
  exists tok a b i row,
    select_token (default VNone ((∅ : gmap string pyval) !! "guest_token"))
      w_valid = VStr tok
    /\ split _cookie_separator tok = [a; b]
    /\ int_of_str sample_decimal sample_max_digits a = Some i
    /\ mail_guest w_valid !! i = Some row
    /\ access_token row = Some b
    /\ Recordset [5] false = Recordset [i] false.
Proof.
  apply (resolved_guest_authentic sample_decimal sample_max_digits
           sample_zones None [] ∅ w_valid
           (add_guest_to_context sample_decimal sample_max_digits
              sample_zones probe None [] ∅ w_valid).2);
    [reflexivity | vm_compute; reflexivity | vm_compute; reflexivity
     | discriminate].
Defined.

(** X7 at sample data. *)
Lemma valid_token_resolves_witness :
  exists w1,
    add_guest_to_context sample_decimal sample_max_digits sample_zones
      probe (Some ∅) [] ∅ w_valid
    = probe (insert "guest" (VGuest (Recordset [5] false)) <$> Some ∅) []
            (delete "guest_token" ∅) w1
    /\ context w1
       = <["guest" := VGuest (Recordset [5] false)]> (context w_valid)
    /\ db_lookups w1 = S (db_lookups w_valid)
    /\ resolved w1 = true.
Proof.
  apply (valid_token_resolves sample_decimal sample_max_digits sample_zones
           probe (Some ∅) [] ∅ w_valid
           (py "5|s3cret") (py "5") (py "s3cret") 5 bob);
    first [reflexivity | discriminate].
Defined.

(** X4 at sample data. *)
Lemma timezone_from_cookie_witness :
  exists w1,
    add_guest_to_context sample_decimal sample_max_digits sample_zones
      probe None [] ∅ w_valid
    = attach probe None [] ∅ (Recordset [5] false) w1
    /\ (5 ∈ row_locked w_valid -> mail_guest w1 = mail_guest w_valid)
    /\ (5 ∉ row_locked w_valid ->
        mail_guest w1
        = <[5 := GuestRow (name bob) (access_token bob) (Some (py "UTC"))
                          (channel_ids bob)]> (mail_guest w_valid)).
Proof.
  apply (timezone_from_cookie sample_decimal sample_max_digits sample_zones
           probe None [] ∅ w_valid
           (py "5|s3cret") (py "5") (py "s3cret") (py "UTC") 5 bob);
    first [reflexivity | discriminate | by left].
Defined.

(** X6 at sample data. *)
Lemma anonymous_not_cached_witness :
  (nested sample_decimal sample_max_digits sample_zones 3 probe
     None [] ∅ w_wrong).1 = Ok tt
  /\ db_lookups
       (nested sample_decimal sample_max_digits sample_zones 3 probe
          None [] ∅ w_wrong).2 = (3 + db_lookups w_wrong)%nat.
Proof.
  apply (anonymous_not_cached sample_decimal sample_max_digits sample_zones
           3 None [] ∅ w_wrong (py "5|wrong") (py "5") (py "wrong") 5);
    first [reflexivity | exact rejected_w_wrong].
Defined.

(** X20 at sample data. *)
Lemma non_string_token_raises_witness :
  add_guest_to_context sample_decimal sample_max_digits sample_zones
    probe None [] {[ "guest_token" := VInt 5 ]} w_plain
  = (Raise AttributeError, w_plain).
Proof.
  apply (non_string_token_raises sample_decimal sample_max_digits
           sample_zones probe None [] _ w_plain); [reflexivity|].
  intros s. vm_compute. discriminate.
Defined.

(** X19 at sample data. *)
Lemma token_two_parts_witness :
  split _cookie_separator (py "5|s3cret") = [py "5"; py "s3cret"].
Proof.
  apply (proj2 (token_two_parts (py "5|s3cret") (py "5") (py "s3cret"))).
  split; [reflexivity|].
  split; intros H; apply list_elem_of_In in H; vm_compute in H;
    intuition discriminate.
Defined.

(** X8 at sample data. *)
Lemma update_name_not_singleton_witness :
  _update_name (Recordset [5; 6] false) (py "Al") w_plain
  = (Raise ValueError, w_plain).
Proof.
  apply (update_name_not_singleton w_plain (Recordset [5; 6] false) (py "Al")).
  simpl. lia.
Defined.

(** X9 at sample data. *)
Lemma update_name_stored_trimmed_witness :
  exists n l r,
    name <$> (mail_guest
                (_update_name (Recordset [5] false) (py " Al ") w_plain).2
              !! 5) = Some n
    /\ py " Al " = l ++ n ++ r
    /\ Forall (fun c => isspace c = true) l
    /\ Forall (fun c => isspace c = true) r
    /\ (1 <= length n <= 512)%nat
    /\ (forall c, head n = Some c -> isspace c = false)
    /\ (forall c, last n = Some c -> isspace c = false).
Proof.
  apply (update_name_stored_trimmed w_plain 5 false bob (py " Al "));
    reflexivity.
Defined.

(** X10 at sample data. *)
Lemma update_name_frame_witness :
  mail_guest (_update_name (Recordset [5] false) (py " Al ") w_plain).2
  = <[5 := GuestRow (strip (py " Al ")) (access_token bob) (timezone bob)
                    (channel_ids bob)]> (mail_guest w_plain)
  /\ (forall j, j <> 5 ->
        mail_guest (_update_name (Recordset [5] false) (py " Al ") w_plain).2
          !! j = mail_guest w_plain !! j)
  /\ cookies (_update_name (Recordset [5] false) (py " Al ") w_plain).2
     = cookies w_plain
  /\ context (_update_name (Recordset [5] false) (py " Al ") w_plain).2
     = context w_plain
  /\ db_lookups (_update_name (Recordset [5] false) (py " Al ") w_plain).2
     = db_lookups w_plain.
Proof.
  apply (update_name_frame w_plain 5 false bob (py " Al ")); reflexivity.
Defined.

(** X11 at sample data. *)
Lemma update_timezone_effect_witness :
  mail_guest (_update_timezone (Recordset [5] true) (py "UTC") w_plain).2
  = <[5 := GuestRow (name bob) (access_token bob) (Some (py "UTC"))
                    (channel_ids bob)]> (mail_guest w_plain).
Proof.
  apply (proj1 (proj2 (proj2 (proj2
           (update_timezone_effect w_plain 5 true (py "UTC"))))) bob);
    [|reflexivity].
  intros H. vm_compute in H. discriminate H.
Defined.

(** X12 at sample data. *)
Lemma timezone_from_request_known_witness :
  py "UTC" ∈ sample_zones /\ cookies w_valid !! "tz" = Some (py "UTC").
Proof.
  apply (timezone_from_request_known sample_zones w_valid (py "UTC")).
  reflexivity.
Defined.

(** X13 at sample data. *)
Lemma im_status_values_witness :
  exists res : list (Z * string),
    _compute_im_status sample_disconnection sample_away
      (Recordset [5; 8; 9] false) w_plain = (Ok res, w_plain)
    /\ res.*1 = [5; 8; 9]
    /\ Forall (fun p => p.2 ∈ ["offline"; "away"; "online"]) res.
Proof.
  apply (im_status_values sample_disconnection sample_away w_plain
           (Recordset [5; 8; 9] false)).
  discriminate.
Defined.

(** X14 at sample data. *)
Lemma im_status_batch_independent_witness :
  im_status sample_disconnection sample_away 6 w_plain = (Ok "away", w_plain).
Proof.
  apply (im_status_batch_independent sample_disconnection sample_away w_plain
           (Recordset [5; 6; 7] false) 6
           [(5, "offline"); (6, "away"); (7, "online")] "away").
  - reflexivity.
  - right. left.
Defined.

(** X15 at sample data. *)
Lemma im_status_null_poll_witness :
  "online" <> "offline"
  /\ (last_presence (PresenceRow 9 None None) = None -> "online" = "online")
  /\ (forall q, last_presence (PresenceRow 9 None None) = Some q ->
        "online" = if seconds sample_away <? now w_plain - q
                   then "away" else "online").
Proof.
  apply (im_status_null_poll sample_disconnection sample_away w_plain
           (Recordset [9] false) (PresenceRow 9 None None) [(9, "online")]).
  - apply NoDup_ListNoDup. repeat constructor; simpl; intuition lia.
  - apply list_elem_of_In. simpl. tauto.
  - left.
  - reflexivity.
  - reflexivity.
  - left.
Defined.

(** X16 at sample data. *)
Lemma guest_format_entries_witness :
  exists m,
    _guest_format sample_disconnection sample_away (Recordset [5] false)
      ["name"; "id"] w_plain = (Ok m, w_plain)
    /\ (forall i, i ∉ [5] -> m !! i = None)
    /\ forall i g, i ∈ [5] -> mail_guest w_plain !! i = Some g ->
         m !! i = Some (entry_of sample_disconnection sample_away
                          (format_fields ["name"; "id"]) w_plain i g)
         /\ (entry_of sample_disconnection sample_away
               (format_fields ["name"; "id"]) w_plain i g).*1
            = filter (fun k => k ∈ format_fields ["name"; "id"])
                     ["id"; "name"; "im_status"].
Proof.
  apply (guest_format_entries sample_disconnection sample_away w_plain
           (Recordset [5] false) ["name"; "id"]).
  intros i Hi. apply list_elem_of_singleton in Hi. subst i. by exists bob.
Defined.

(** X17 at sample data. *)
Lemma guest_format_default_witness :
  exists st,
    im_status sample_disconnection sample_away 5 w_plain = (Ok st, w_plain)
    /\ _guest_format sample_disconnection sample_away (Recordset [5] false)
         [] w_plain
       = (Ok {[ 5 := [("id", VInt 5); ("name", VStr (name bob));
                      ("im_status", VStr (py st))] ]}, w_plain).
Proof.
  apply (guest_format_default sample_disconnection sample_away w_plain 5
           false bob).
  reflexivity.
Defined.

(** X21 at sample data. *)
Lemma attached_guest_unprivileged_witness :
  exists g,
    context (add_guest_to_context sample_decimal sample_max_digits
               sample_zones probe None [] ∅ w_wrong).2 !! "guest"
    = Some (VGuest g)
    /\ su g = false
    /\ (ids g = [] \/
        exists i, ids g = [i] /\ is_Some (mail_guest w_wrong !! i)).
Proof.
  apply (attached_guest_unprivileged sample_decimal sample_max_digits
           sample_zones None [] ∅ w_wrong); [reflexivity|].
  vm_compute. reflexivity.
Defined.

(** X22 at sample data. *)
Lemma init_messaging_read_only_witness :
  (_init_messaging sample_env (Recordset [] false) w_plain).1
  = Raise ValueError.
Proof.
  apply (proj2 (init_messaging_read_only sample_env w_plain
                  (Recordset [] false))).
  simpl. lia.
Defined.

(** X24 at sample data. *)
Lemma ascii_token_never_raises_witness :
  (add_guest_to_context sample_decimal sample_max_digits sample_zones
     probe None [] ∅ w_valid).1 = Ok tt.
Proof.
  apply (ascii_token_never_raises sample_decimal sample_max_digits
           sample_zones None [] ∅ w_valid (py "5|s3cret"));
    try reflexivity.
  - intros a b H. vm_compute in H. injection H as <- _.
    eexists. vm_compute. reflexivity.
  - intros i g t Hg Ht.
    change (mail_guest w_valid) with ({[ 5 := bob ]} : gmap Z guest_row)
      in Hg.
    apply lookup_singleton_Some in Hg as [_ <-].
    injection Ht as <-. reflexivity.
Defined.

(** X25 at sample data: guest 7, online at 100 s, is offline at 200 s. *)
Lemma im_status_only_degrades_witness :
  (status_rank "online" <= status_rank "offline")%nat.
Proof.
  apply (im_status_only_degrades sample_disconnection sample_away w_plain
           200000000 7 "online" "offline");
    [vm_compute; discriminate | reflexivity | reflexivity].
Defined.

(** X26 at sample data. *)
Lemma int_of_str_digits_witness :
  int_of_str sample_decimal sample_max_digits (py "0042")
  = Some (decimal_value 0 (py "0042")).
Proof.
  apply (int_of_str_digits sample_decimal sample_max_digits (py "0042"));
    [discriminate | reflexivity | right; vm_compute; discriminate].
Defined.
